(** * Weibo trending pipeline: fetch, summarise, notify

    A shallow embedding of the three stages (weibo_fetcher.py,
    weibo_summarizer.py / deepseek_summarizer.py, weibo_email_notifier.py)
    and of the orchestrator (main.py).  Every remote service is an input of
    the model: the answer of the ranking provider, the answers of the
    completion endpoint indexed by call number, and the fate of each SMTP
    session.  Each operation returns its Python value together with the
    trace of the effects it performed (log records, network calls, sleeps). *)

From Stdlib Require Import List String Ascii ZArith Lia Bool Arith DecimalString.
Import ListNotations.
Local Open Scope string_scope.
Local Open Scope list_scope.

(** ** Python built-ins *)

(** [str.strip], [str.lower] and [int(str)] are library functions of the
    host language; the development is parametric in them.  [py_int] gives
    [None] where Python raises ValueError. *)
Class PyBuiltins := {
  py_strip : string -> string;
  py_lower : string -> string;
  py_int : string -> option Z
}.

(** [needle in hay] on strings. *)
Fixpoint contains (needle hay : string) : bool :=
  String.prefix needle hay ||
  match hay with
  | EmptyString => false
  | String _ rest => contains needle rest
  end.

(** Python truthiness of a string. *)
Definition nonempty (s : string) : bool :=
  match s with
  | EmptyString => false
  | String _ _ => true
  end.

(** Truthiness of an optional string, such as a value of [os.getenv]. *)
Definition truthy (v : option string) : bool :=
  match v with
  | Some s => nonempty s
  | None => false
  end.

(** ** Exceptions *)

(** Subclasses of [smtplib.SMTPException]. *)
Inductive smtp_error :=
| SMTPServerDisconnected
| SMTPConnectError
| SMTPHeloError
| SMTPAuthenticationError
| SMTPSenderRefused
| SMTPRecipientsRefused
| SMTPDataError
| SMTPNotSupportedError.

(** The handlers of the program tell three classes apart:
    [except requests.exceptions.RequestException],
    [except smtplib.SMTPException] and the catch-all [except Exception]. *)
Inductive exn_class :=
| RequestException
| SMTPException (sub : smtp_error)
| OtherException.

Record exn := Exn { exn_kind : exn_class; exn_str : string }.

Inductive res (A : Type) :=
| Ok (a : A)
| Raise (e : exn).
Arguments Ok {A} a.
Arguments Raise {A} e.

(** ** Data *)

(** A value of a topic field: the provider sends strings or numbers. *)
Inductive pyval :=
| VStr (s : string)
| VInt (z : Z).

(** One entry of the ranking, a JSON object read with [dict.get]. *)
Record topic := Topic {
  hottag : option string;
  hotword : option string;
  hotwordnum : option pyval
}.

(** [lst[:stop]] for an integer [stop], negative values counting from the end. *)
Definition slice_to {A : Type} (lst : list A) (stop : Z) : list A :=
  if (stop <? 0)%Z
  then firstn (Z.to_nat (Z.of_nat (List.length lst) + stop)) lst
  else firstn (Z.to_nat stop) lst.

(** ** Completion endpoint *)

Inductive choice :=
| Choice_message (content : option string)
| Choice_text (text : option string)
| Choice_bare.

Record response := Response { choices : option (list choice) }.

Inductive api_outcome :=
| Api_raises (e : exn)
| Api_returns (r : option response).

Inductive template := Reddit_template | Weibo_template.

Record prompt := Prompt {
  prompt_template : template;
  prompt_context : string;
  prompt_content : string
}.

(** ** Rendered mail *)

(** The heat column: [heat/10000] with one decimal and the unit, the plain
    integer, or the raw field when [int()] raised. *)
Inductive heat_str :=
| Heat_scaled (heat : Z)
| Heat_plain (heat : Z)
| Heat_raw (hotwordnum : pyval).

(** [heat/10000] is a float division: it raises OverflowError when the
    quotient rounds beyond the largest double, that is from
    [10000 * (2^1024 - 2^970)] on. *)
Definition division_overflows (heat : Z) : bool :=
  (10000 * (2 ^ 1024 - 2 ^ 970) <=? heat)%Z.

Record row := Row {
  row_rank : nat;
  row_tag : option (string * string);
  row_url : string;
  row_word : string;
  row_heat : heat_str
}.

Record html := Html {
  html_summary : string;
  html_rows : list row
}.

(** ** SMTP sessions *)

(** One [with smtplib.SMTP_SSL(...) as server: login; send_message] block. *)
Inductive session_outcome :=
| Session_sent
| Connect_raises (e : exn)
| Login_raises (e : exn)
| Send_raises (e : exn).

(** ** Effects *)

Inductive level := INFO | WARNING | ERROR.

Inductive message :=
(* deepseek_summarizer.py *)
| Msg_content_empty
| Msg_start_content (len : nat)
| Msg_empty_response
| Msg_no_text
| Msg_no_choices
| Msg_summary_empty
| Msg_summary_blank
| Msg_summary_done (len : nat)
| Msg_attempt_failed (number : nat) (error_msg : string)
| Msg_quota_wait (wait_time : Z)
| Msg_server_wait (wait_time : Z)
| Msg_no_retry (error_msg : string)
| Msg_wait (wait_time : Z)
| Msg_exhausted (retries : nat) (last_error : option string)
(* weibo_summarizer.py *)
| Msg_summarizer_init
| Msg_start_topics (count : nat)
| Msg_summarize_failed (error_msg : string)
(* weibo_fetcher.py *)
| Msg_fetcher_init
| Msg_fetch_start
| Msg_api_error (error_msg : string)
| Msg_fetched (count : nat)
| Msg_request_failed (error_msg : string)
| Msg_fetch_failed (error_msg : string)
(* weibo_email_notifier.py *)
| Msg_notifier_init
| Msg_send_attempt (number : nat)
| Msg_sent
| Msg_send_attempt_failed (number : nat) (error_msg : string)
| Msg_send_failed (error_msg : string)
(* main.py *)
| Msg_banner
| Msg_missing_tianapi_key
| Msg_missing_deepseek_key
| Msg_mail_config_incomplete
| Msg_step (number : nat)
| Msg_no_topics
| Msg_got_topics (count : nat)
| Msg_raw_saved
| Msg_summary_failed
| Msg_summary_length (len : nat)
| Msg_summary_saved
| Msg_mail_ok
| Msg_mail_failed
| Msg_program_failed (error_msg : string).

Inductive event :=
| Log (l : level) (m : message)
| Http_get
| Completion_call (p : prompt) (max_tokens : Z)
| Sleep (seconds : Z)
| Smtp_open
| Smtp_login
| Smtp_send (body : html)
| Smtp_close
| File_write (name : string).

Definition trace := list event.

Definition is_completion_call (ev : event) : bool :=
  match ev with
  | Completion_call _ _ => true
  | _ => false
  end.

(** Number of requests sent to the completion endpoint. *)
Definition calls (tr : trace) : nat := List.length (filter is_completion_call tr).

Definition is_smtp_open (ev : event) : bool :=
  match ev with
  | Smtp_open => true
  | _ => false
  end.

(** Number of delivery attempts (sessions the notifier tried to open). *)
Definition sessions (tr : trace) : nat := List.length (filter is_smtp_open tr).

Definition is_http_get (ev : event) : bool :=
  match ev with
  | Http_get => true
  | _ => false
  end.

Definition requests (tr : trace) : nat := List.length (filter is_http_get tr).

(** The error records of a trace, in order. *)
Definition errors (tr : trace) : list message :=
  flat_map (fun ev => match ev with Log ERROR m => [m] | _ => [] end) tr.

(** ** deepseek_summarizer.py *)

Module DeepSeekSummarizer.

Section WithBuiltins.
Context {py : PyBuiltins}.

Record t := Make {
  model_name : string;
  max_retries : nat;
  retry_delay : Z
}.

(** [__init__]: the retry configuration is fixed at construction. *)
Definition init (model : string) : t :=
  {| model_name := model; max_retries := 3; retry_delay := 2 |}.

Inductive error_class := Quota | Server | Client | Network.

(** The if/elif chain over [str(e)] in the exception handler. *)
Definition classify (error_msg : string) : error_class :=
  if contains "429" error_msg
     || contains "rate limit" (py_lower error_msg)
     || contains "quota" (py_lower error_msg)
  then Quota
  else if contains "500" error_msg
          || contains "503" error_msg
          || contains "service unavailable" (py_lower error_msg)
  then Server
  else if contains "400" error_msg
          || contains "401" error_msg
          || contains "403" error_msg
          || contains "404" error_msg
  then Client
  else Network.

(** The three [wait_time] expressions, [attempt] counting from 0. *)
Definition quota_wait (self : t) (attempt : nat) : Z :=
  retry_delay self * (Z.of_nat attempt + 1) * 2.

Definition server_wait (self : t) (attempt : nat) : Z :=
  retry_delay self * (Z.of_nat attempt + 1).

Definition network_wait (self : t) (attempt : nat) : Z :=
  retry_delay self * (Z.of_nat attempt + 1).

(** What one iteration of the loop decides. *)
Inductive flow :=
| Return (r : option string)
| Continue.

(** The [try] block after the call returned [r]. *)
Definition on_response (r : option response) : flow * trace :=
  match r with
  | None => (Continue, [Log ERROR Msg_empty_response])
  | Some resp =>
    match choices resp with
    | Some (Choice_bare :: _) => (Continue, [Log ERROR Msg_no_text])
    | Some (Choice_message summary_text :: _)
    | Some (Choice_text summary_text :: _) =>
      match summary_text with
      | None => (Continue, [Log WARNING Msg_summary_empty])
      | Some text =>
        if nonempty text then
          let summary := py_strip text in
          if nonempty summary
          then (Return (Some summary),
                [Log INFO (Msg_summary_done (String.length summary))])
          else (Continue, [Log WARNING Msg_summary_blank])
        else (Continue, [Log WARNING Msg_summary_empty])
      end
    | _ => (Continue, [Log ERROR Msg_no_choices])
    end
  end.

(** The [except Exception as e] block. *)
Definition on_exception (self : t) (attempt : nat) (e : exn) : flow * trace :=
  let error_msg := exn_str e in
  let warned := Log WARNING (Msg_attempt_failed (attempt + 1) error_msg) in
  match classify error_msg with
  | Quota =>
    let wait_time := quota_wait self attempt in
    (Continue, [warned; Log INFO (Msg_quota_wait wait_time); Sleep wait_time])
  | Server =>
    let wait_time := server_wait self attempt in
    (Continue, [warned; Log INFO (Msg_server_wait wait_time); Sleep wait_time])
  | Client => (Return None, [warned; Log ERROR (Msg_no_retry error_msg)])
  | Network =>
    if (Z.of_nat attempt <? Z.of_nat (max_retries self) - 1)%Z then
      let wait_time := network_wait self attempt in
      (Continue, [warned; Log INFO (Msg_wait wait_time); Sleep wait_time])
    else (Continue, [warned])
  end.

(** One iteration: the decision, the new [last_error], the effects after
    the call itself. *)
Definition iteration (self : t) (attempt : nat) (o : api_outcome)
           (last_error : option exn) : flow * option exn * trace :=
  match o with
  | Api_raises e =>
    let '(f, tr) := on_exception self attempt e in (f, Some e, tr)
  | Api_returns r =>
    let '(f, tr) := on_response r in (f, last_error, tr)
  end.

(** [for attempt in range(self.max_retries)] with [n] iterations left,
    followed by the code after the loop. *)
Fixpoint attempts (self : t) (api : nat -> api_outcome) (p : prompt)
         (n attempt : nat) (last_error : option exn) : option string * trace :=
  match n with
  | O =>
    (None,
     [Log ERROR (Msg_exhausted (max_retries self) (option_map exn_str last_error))])
  | S n' =>
    let '(f, last_error', tr) := iteration self attempt (api attempt) last_error in
    match f with
    | Return r => (r, Completion_call p 2000 :: tr)
    | Continue =>
      let '(r, tr') := attempts self api p n' (S attempt) last_error' in
      (r, Completion_call p 2000 :: tr ++ tr')
    end
  end.

(** The guard [not content or len(content.strip()) == 0]. *)
Definition rejected (content : string) : bool :=
  negb (nonempty content) || Nat.eqb (String.length (py_strip content)) 0.

Definition summarize (self : t) (api : nat -> api_outcome)
           (content context : string) : option string * trace :=
  if rejected content then (None, [Log WARNING Msg_content_empty])
  else
    let p := Prompt Reddit_template context content in
    let '(r, tr) := attempts self api p (max_retries self) 0 None in
    (r, Log INFO (Msg_start_content (String.length content)) :: tr).

End WithBuiltins.

End DeepSeekSummarizer.

(** ** A monad for code inside [try] blocks

    A computation yields a value or a raised exception, together with the
    effects performed up to that point. *)

Definition M (A : Type) : Type := res A * trace.

Definition ret {A : Type} (a : A) : M A := (Ok a, []).

Definition throw {A : Type} (e : exn) : M A := (Raise e, []).

Definition emit (ev : event) : M unit := (Ok tt, [ev]).

Definition bind {A B : Type} (m : M A) (k : A -> M B) : M B :=
  match m with
  | (Ok a, tr) => let '(r, tr') := k a in (r, tr ++ tr')
  | (Raise e, tr) => (Raise e, tr)
  end.

Notation "x <- m ;; k" := (bind m (fun x => k))
  (at level 61, m at next level, right associativity).
Notation "m ;;; k" := (bind m (fun _ => k))
  (at level 61, right associativity).

(** [try: m except Exception as e: handler e]. *)
Definition try_except {A : Type} (m : M A) (handler : exn -> A * trace) : A * trace :=
  match m with
  | (Ok a, tr) => (a, tr)
  | (Raise e, tr) => let '(a, tr') := handler e in (a, tr ++ tr')
  end.

Definition newline : string := String (ascii_of_nat 10) EmptyString.

(** [str(v)] as an f-string field prints it. *)
Definition show (v : pyval) : string :=
  match v with
  | VStr s => s
  | VInt z => NilZero.string_of_int (Z.to_int z)
  end.

Definition show_nat (n : nat) : string := show (VInt (Z.of_nat n)).

(** [d.get(key, default)]. *)
Definition get {A : Type} (field : option A) (default : A) : A :=
  match field with
  | Some v => v
  | None => default
  end.

(** ** weibo_summarizer.py *)

Module WeiboSummarizer.

Section WithBuiltins.
Context {py : PyBuiltins}.

(** [__init__]: the key is the argument or, failing that, the environment
    variable; without either the constructor raises ValueError. *)
Definition init (api_key env_key : option string) : M unit :=
  if truthy api_key || truthy env_key
  then emit (Log INFO Msg_summarizer_init)
  else throw (Exn OtherException "DeepSeek API key is not set").

(** The lines built from [enumerate(topics[:30])], [i] counting from 0. *)
Fixpoint render (i : nat) (topics : list topic) : list string :=
  match topics with
  | [] => []
  | t :: rest =>
    (show_nat (i + 1) ++ ". [" ++ get (hottag t) "" ++ "] "
       ++ get (hotword t) "" ++ " (热度: " ++ show (get (hotwordnum t) (VStr "0"))
       ++ ")")%string
    :: render (S i) rest
  end.

Definition content_of (topics : list topic) : string :=
  String.concat newline (render 0 (slice_to topics 30)).

(** [response.choices[0].message.content.strip()]; each missing piece
    raises inside the [try]. *)
Definition extract (r : option response) : M string :=
  match r with
  | None => throw (Exn OtherException "'NoneType' object has no attribute 'choices'")
  | Some resp =>
    match choices resp with
    | None => throw (Exn OtherException "'NoneType' object is not subscriptable")
    | Some [] => throw (Exn OtherException "list index out of range")
    | Some (Choice_message (Some text) :: _) => ret (py_strip text)
    | Some (Choice_message None :: _) =>
      throw (Exn OtherException "'NoneType' object has no attribute 'strip'")
    | Some (_ :: _) =>
      throw (Exn OtherException "'Choice' object has no attribute 'message'")
    end
  end.

(** The body of the [try] block of [summarize]. *)
Definition summarize_body (api : nat -> api_outcome) (topics : list topic) : M string :=
  emit (Log INFO (Msg_start_topics (List.length topics))) ;;;
  emit (Completion_call (Prompt Weibo_template "" (content_of topics)) 1000) ;;;
  match api 0 with
  | Api_raises e => throw e
  | Api_returns r =>
    summary <- extract r ;;
    emit (Log INFO (Msg_summary_done (String.length summary))) ;;;
    ret summary
  end.

Definition summarize (api : nat -> api_outcome) (topics : list topic)
  : option string * trace :=
  try_except
    (summary <- summarize_body api topics ;; ret (Some summary))
    (fun e => (None, [Log ERROR (Msg_summarize_failed (exn_str e))])).

End WithBuiltins.

End WeiboSummarizer.

(** ** weibo_fetcher.py *)

Module WeiboFetcher.

Inductive result_field :=
| Result_absent
| Result_null
| Result_object (lst : option (list topic)).

(** The JSON envelope of the ranking provider. *)
Record envelope := Envelope {
  code : option pyval;
  msg : option string;
  result : result_field
}.

(** [requests.get], [raise_for_status] and [response.json()] together:
    one of them raises, or the body parses. *)
Inductive http_outcome :=
| Get_raises (e : exn)
| Get_json (data : envelope).

(** [data.get("code") != 200]. *)
Definition code_not_200 (data : envelope) : bool :=
  match code data with
  | Some (VInt 200) => false
  | _ => true
  end.

(** [__init__] stores the key and logs. *)
Definition init : M unit := emit (Log INFO Msg_fetcher_init).

(** The default of the [limit] parameter. *)
Definition default_limit : Z := 50.

(** The body of the [try] block of [fetch_hot_topics]. *)
Definition fetch_body (http : http_outcome) (limit : Z) : M (list topic) :=
  emit (Log INFO Msg_fetch_start) ;;;
  emit Http_get ;;;
  match http with
  | Get_raises e => throw e
  | Get_json data =>
    if code_not_200 data then
      let error_msg := get (msg data) "未知错误" in
      emit (Log ERROR (Msg_api_error error_msg)) ;;;
      ret []
    else
      hot_topics <-
        match result data with
        | Result_absent => ret []
        | Result_null =>
          throw (Exn OtherException "'NoneType' object has no attribute 'get'")
        | Result_object lst => ret (get lst [])
        end ;;
      let hot_topics := slice_to hot_topics limit in
      emit (Log INFO (Msg_fetched (List.length hot_topics))) ;;;
      ret hot_topics
  end.

Definition fetch_hot_topics (http : http_outcome) (limit : Z) : list topic * trace :=
  try_except (fetch_body http limit)
    (fun e =>
       match exn_kind e with
       | RequestException => ([], [Log ERROR (Msg_request_failed (exn_str e))])
       | _ => ([], [Log ERROR (Msg_fetch_failed (exn_str e))])
       end).

Section WithBuiltins.
Context {py : PyBuiltins}.

(** One line of [format_topics]: the rank, the bracketed tag (empty without
    a tag), the word and the heat. *)
Record line := Line {
  line_rank : nat;
  line_tag : string;
  line_word : string;
  line_heat : heat_str
}.

(** The [try: heat = int(hotwordnum) ... except: heat_str = hotwordnum]
    block of [format_topics]: the bare [except] also takes the overflow of
    the division. *)
Definition heat_text (num : pyval) : heat_str :=
  match match num with
        | VInt z => Some z
        | VStr s => py_int s
        end with
  | Some heat =>
    if (heat >=? 10000)%Z then
      if division_overflows heat then Heat_raw num else Heat_scaled heat
    else Heat_plain heat
  | None => Heat_raw num
  end.

(** The loop [for i, topic in enumerate(topics, 1)]. *)
Fixpoint lines (i : nat) (topics : list topic) : list line :=
  match topics with
  | [] => []
  | t :: rest =>
    let tag := get (hottag t) "" in
    {| line_rank := i;
       line_tag := if nonempty tag then ("[" ++ tag ++ "]")%string else "";
       line_word := get (hotword t) "";
       line_heat := heat_text (get (hotwordnum t) (VStr "0")) |}
    :: lines (S i) rest
  end.

(** The text returned by [format_topics]: the placeholder for an empty
    list, otherwise the lines joined by newlines. *)
Inductive formatted :=
| No_data
| Lines (ls : list line).

Definition format_topics (topics : list topic) : formatted :=
  match topics with
  | [] => No_data
  | _ :: _ => Lines (lines 1 topics)
  end.

End WithBuiltins.

End WeiboFetcher.

(** ** weibo_email_notifier.py *)

Module WeiboEmailNotifier.

Section WithBuiltins.
Context {py : PyBuiltins}.

(** [__init__] stores its arguments and logs. *)
Definition init : M unit := emit (Log INFO Msg_notifier_init).

(** The [try: heat = int(hotwordnum) ... except: heat_str = hotwordnum]
    block: the bare [except] also takes the overflow of the division. *)
Definition heat_of (num : pyval) : heat_str :=
  match match num with
        | VInt z => Some z
        | VStr s => py_int s
        end with
  | Some heat =>
    if (heat >=? 10000)%Z then
      if division_overflows heat then Heat_raw num else Heat_scaled heat
    else Heat_plain heat
  | None => Heat_raw num
  end.

Definition tag_color (tag : string) : string :=
  if String.eqb tag "热" then "#ff6b6b"
  else if String.eqb tag "新" then "#4ecdc4"
  else "#95e1d3".

(** The loop [for i, topic in enumerate(topics[:30], 1)], one table row
    appended per iteration. *)
Fixpoint topics_html (i : nat) (topics : list topic) : list row :=
  match topics with
  | [] => []
  | t :: rest =>
    let tag := get (hottag t) "" in
    let word := get (hotword t) "" in
    let num := get (hotwordnum t) (VStr "0") in
    {| row_rank := i;
       row_tag := if nonempty tag then Some (tag_color tag, tag) else None;
       row_url := ("https://s.weibo.com/weibo?q=" ++ word)%string;
       row_word := word;
       row_heat := heat_of num |}
    :: topics_html (S i) rest
  end.

Definition _generate_html (summary : string) (topics : list topic) : html :=
  {| html_summary := summary;
     html_rows := topics_html 1 (slice_to topics 30) |}.

(** One [with smtplib.SMTP_SSL(...) as server] block: the session is
    closed on leaving the block once it was opened. *)
Definition session (body : html) (o : session_outcome) : M unit :=
  emit Smtp_open ;;;
  match o with
  | Connect_raises e => throw e
  | Login_raises e => emit Smtp_login ;;; emit Smtp_close ;;; throw e
  | Send_raises e =>
    emit Smtp_login ;;; emit (Smtp_send body) ;;; emit Smtp_close ;;; throw e
  | Session_sent =>
    emit Smtp_login ;;; emit (Smtp_send body) ;;; emit Smtp_close
  end.

(** [for attempt in range(3)] with [n] iterations left, then the
    [return False] after the loop. *)
Fixpoint deliver (smtp : nat -> session_outcome) (body : html)
         (n attempt : nat) : M bool :=
  match n with
  | O => ret false
  | S n' =>
    emit (Log INFO (Msg_send_attempt (attempt + 1))) ;;;
    match session body (smtp attempt) with
    | (Ok _, tr) => (Ok tt, tr) ;;; emit (Log INFO Msg_sent) ;;; ret true
    | (Raise e, tr) =>
      match exn_kind e with
      | SMTPException _ =>
        (Ok tt, tr) ;;;
        emit (Log WARNING (Msg_send_attempt_failed (attempt + 1) (exn_str e))) ;;;
        if Nat.eqb attempt 2 then throw e
        else deliver smtp body n' (S attempt)
      | _ => (Raise e, tr)
      end
    end
  end.

Definition send_email (smtp : nat -> session_outcome) (summary : string)
           (topics : list topic) : bool * trace :=
  try_except
    (let html_content := _generate_html summary topics in
     deliver smtp html_content 3 0)
    (fun e => (false, [Log ERROR (Msg_send_failed (exn_str e))])).

End WithBuiltins.

End WeiboEmailNotifier.

(** ** main.py *)

Module Main.

Section WithBuiltins.
Context {py : PyBuiltins}.

(** The environment variables read by [main]. *)
Record environ := Environ {
  TIANAPI_KEY : option string;
  DEEPSEEK_API_KEY : option string;
  DEEPSEEK_BASE_URL : option string;
  EMAIL_SENDER : option string;
  EMAIL_PASSWORD : option string;
  EMAIL_RECIPIENT : option string;
  SMTP_SERVER : option string;
  SMTP_PORT : option string
}.

(** Everything outside the process that one run meets. *)
Record world := World {
  env : environ;
  http : WeiboFetcher.http_outcome;
  completion : nat -> api_outcome;
  smtp : nat -> session_outcome;
  raw_write : option exn;
  summary_write : option exn
}.

(** The run passes the configuration checks at the top of [main]:
    the port parses and the three [if not ...] tests find nothing missing. *)
Definition configured (e : environ) : bool :=
  match py_int (get (SMTP_PORT e) "465") with
  | Some _ =>
    truthy (TIANAPI_KEY e) && truthy (DEEPSEEK_API_KEY e)
    && forallb truthy [EMAIL_SENDER e; EMAIL_PASSWORD e; EMAIL_RECIPIENT e]
  | None => false
  end.

(** A call of a stage: it returns a plain value and its effects. *)
Definition call {A : Type} (r : A * trace) : M A := (Ok (fst r), snd r).

(** [with open(name, 'w') as f: ...]. *)
Definition write_file (name : string) (failure : option exn) : M unit :=
  emit (File_write name) ;;;
  match failure with
  | Some e => throw e
  | None => ret tt
  end.

(** The body of the [try] block of [main]. *)
Definition main_body (w : world) : M bool :=
  emit (Log INFO Msg_banner) ;;;
  let tianapi_key := TIANAPI_KEY (env w) in
  let deepseek_api_key := DEEPSEEK_API_KEY (env w) in
  let email_sender := EMAIL_SENDER (env w) in
  let email_password := EMAIL_PASSWORD (env w) in
  let email_recipient := EMAIL_RECIPIENT (env w) in
  smtp_port <-
    match py_int (get (SMTP_PORT (env w)) "465") with
    | Some port => ret port
    | None => throw (Exn OtherException "invalid literal for int() with base 10")
    end ;;
  if negb (truthy tianapi_key) then
    emit (Log ERROR Msg_missing_tianapi_key) ;;; ret false
  else if negb (truthy deepseek_api_key) then
    emit (Log ERROR Msg_missing_deepseek_key) ;;; ret false
  else if negb (forallb truthy [email_sender; email_password; email_recipient]) then
    emit (Log ERROR Msg_mail_config_incomplete) ;;; ret false
  else
    emit (Log INFO (Msg_step 1)) ;;;
    WeiboFetcher.init ;;;
    topics <- call (WeiboFetcher.fetch_hot_topics (http w) 50) ;;
    match topics with
    | [] => emit (Log ERROR Msg_no_topics) ;;; ret false
    | _ :: _ =>
      emit (Log INFO (Msg_got_topics (List.length topics))) ;;;
      write_file "weibo_topics_raw.txt" (raw_write w) ;;;
      emit (Log INFO Msg_raw_saved) ;;;
      emit (Log INFO (Msg_step 2)) ;;;
      WeiboSummarizer.init deepseek_api_key (DEEPSEEK_API_KEY (env w)) ;;;
      summary <- call (WeiboSummarizer.summarize (completion w) topics) ;;
      match summary with
      | None | Some EmptyString => emit (Log ERROR Msg_summary_failed) ;;; ret false
      | Some summary =>
        emit (Log INFO (Msg_summary_length (String.length summary))) ;;;
        write_file "weibo_summary.md" (summary_write w) ;;;
        emit (Log INFO Msg_summary_saved) ;;;
        emit (Log INFO (Msg_step 3)) ;;;
        WeiboEmailNotifier.init ;;;
        email_sent <- call (WeiboEmailNotifier.send_email (smtp w) summary topics) ;;
        if email_sent : bool then emit (Log INFO Msg_mail_ok) ;;; ret true
        else emit (Log ERROR Msg_mail_failed) ;;; ret false
      end
    end.

Definition main (w : world) : bool * trace :=
  try_except (main_body w)
    (fun e => (false, [Log ERROR (Msg_program_failed (exn_str e))])).

End WithBuiltins.

End Main.

(** ** Reading a run in the words of the specification *)

Inductive stage := Stage_fetch | Stage_summarize | Stage_deliver.

(** Records written by the summarizer or on its behalf. *)
Definition summarizer_event (ev : event) : bool :=
  match ev with
  | Completion_call _ _ => true
  | Log _ Msg_summarizer_init
  | Log _ (Msg_start_topics _)
  | Log _ (Msg_summary_done _)
  | Log _ (Msg_summarize_failed _) => true
  | _ => false
  end.

Definition notifier_event (ev : event) : bool :=
  match ev with
  | Smtp_open | Smtp_login | Smtp_send _ | Smtp_close => true
  | Log _ Msg_notifier_init
  | Log _ (Msg_send_attempt _)
  | Log _ Msg_sent
  | Log _ (Msg_send_attempt_failed _ _)
  | Log _ (Msg_send_failed _) => true
  | _ => false
  end.

(** No record of the run comes from the summarizer or the notifier. *)
Definition later_stages_silent (tr : trace) : bool :=
  forallb (fun ev => negb (summarizer_event ev || notifier_event ev)) tr.

(** The stage named by the error record with which [main] gave up. *)
Definition aborted_stage (tr : trace) : option stage :=
  match last (errors tr) Msg_banner with
  | Msg_no_topics => Some Stage_fetch
  | Msg_summary_failed => Some Stage_summarize
  | Msg_mail_failed => Some Stage_deliver
  | _ => None
  end.

(** ** An instance of the built-ins on ASCII text *)

Definition ascii_lower_char (c : ascii) : ascii :=
  let n := nat_of_ascii c in
  if ((65 <=? n) && (n <=? 90))%nat then ascii_of_nat (n + 32) else c.

Fixpoint ascii_lower (s : string) : string :=
  match s with
  | EmptyString => EmptyString
  | String c rest => String (ascii_lower_char c) (ascii_lower rest)
  end.

Definition is_space (c : ascii) : bool :=
  let n := nat_of_ascii c in
  (((9 <=? n) && (n <=? 13)) || ((28 <=? n) && (n <=? 32)))%nat.

Fixpoint lstrip (s : string) : string :=
  match s with
  | EmptyString => EmptyString
  | String c rest => if is_space c then lstrip rest else s
  end.

Fixpoint rstrip (s : string) : string :=
  match s with
  | EmptyString => EmptyString
  | String c rest =>
    match rstrip rest with
    | EmptyString => if is_space c then EmptyString else String c EmptyString
    | kept => String c kept
    end
  end.

Definition is_digit (c : ascii) : bool :=
  let n := nat_of_ascii c in ((48 <=? n) && (n <=? 57))%nat.

(** The digits of a literal without its underscores; an underscore is
    accepted only between two digits. *)
Fixpoint plain_digits (after_digit : bool) (s : string) : option string :=
  match s with
  | EmptyString => if after_digit then Some EmptyString else None
  | String c rest =>
    if is_digit c then option_map (String c) (plain_digits true rest)
    else if Ascii.eqb c "_" && after_digit then
      match rest with
      | String c' _ => if is_digit c' then plain_digits false rest else None
      | EmptyString => None
      end
    else None
  end.

Definition unsigned_int (s : string) : option Z :=
  match plain_digits false s with
  | Some digits => option_map Z.of_uint (NilZero.uint_of_string digits)
  | None => None
  end.

(** [int(s)] on ASCII text: surrounding blanks, one optional sign, decimal
    digits with single underscores between them. *)
Definition ascii_int (s : string) : option Z :=
  match lstrip (rstrip s) with
  | EmptyString => None
  | String c rest =>
    if Ascii.eqb c "+" then unsigned_int rest
    else if Ascii.eqb c "-" then option_map Z.opp (unsigned_int rest)
    else unsigned_int (String c rest)
  end.

#[export] Instance ascii_builtins : PyBuiltins := {|
  py_strip := fun s => lstrip (rstrip s);
  py_lower := ascii_lower;
  py_int := ascii_int
|}.

(** ** Reading one completion attempt *)

Section Decisions.
Context {py : PyBuiltins}.

(** What an answer of the endpoint makes the retry loop do. *)
Definition decides (o : api_outcome) : DeepSeekSummarizer.flow :=
  match o with
  | Api_raises e =>
    match DeepSeekSummarizer.classify (exn_str e) with
    | DeepSeekSummarizer.Client => DeepSeekSummarizer.Return None
    | _ => DeepSeekSummarizer.Continue
    end
  | Api_returns r => fst (DeepSeekSummarizer.on_response r)
  end.

(** The value of [last_error] after the attempts [a .. a+k-1]. *)
Fixpoint last_raised (api : nat -> api_outcome) (k a : nat)
         (last_error : option exn) : option exn :=
  match k with
  | O => last_error
  | S k' =>
    last_raised api k' (S a)
      match api a with
      | Api_raises e => Some e
      | Api_returns _ => last_error
      end
  end.

(** Total time slept in a trace. *)
Fixpoint slept (tr : trace) : Z :=
  match tr with
  | [] => 0
  | Sleep seconds :: rest => seconds + slept rest
  | _ :: rest => slept rest
  end.

(** In the words of the specification: every attempt that is not a Success
    is a failure with a reason, an error signal or an empty completion. *)
Inductive failure_reason :=
| Reason_error (error_msg : string)
| Reason_empty_completion.

Definition failure_of (o : api_outcome) : option failure_reason :=
  match o with
  | Api_raises e => Some (Reason_error (exn_str e))
  | Api_returns r =>
    match fst (DeepSeekSummarizer.on_response r) with
    | DeepSeekSummarizer.Return _ => None
    | DeepSeekSummarizer.Continue => Some Reason_empty_completion
    end
  end.

(** The reason of the last failure among the attempts [0 .. n-1]. *)
Fixpoint last_observed_failure (api : nat -> api_outcome) (n : nat)
  : option failure_reason :=
  match n with
  | O => None
  | S n' =>
    match failure_of (api n') with
    | Some reason => Some reason
    | None => last_observed_failure api n'
    end
  end.

(** The reason carried by the closing record of an exhausted run. *)
Definition carried_reason (tr : trace) : option failure_reason :=
  match last tr Http_get with
  | Log ERROR (Msg_exhausted _ (Some error_msg)) => Some (Reason_error error_msg)
  | _ => None
  end.

End Decisions.

(** The exception an SMTP session ends with, if any. *)
Definition raised (o : session_outcome) : option exn :=
  match o with
  | Session_sent => None
  | Connect_raises e | Login_raises e | Send_raises e => Some e
  end.

Definition is_smtp (e : exn) : bool :=
  match exn_kind e with
  | SMTPException _ => true
  | _ => false
  end.

(** The session failed with an exception the retry loop catches. *)
Definition retryable (o : session_outcome) : bool :=
  match raised o with
  | Some e => is_smtp e
  | None => false
  end.

(** ** Counting the steps of SMTP sessions *)

Definition is_smtp_login (ev : event) : bool :=
  match ev with
  | Smtp_login => true
  | _ => false
  end.

Definition is_smtp_close (ev : event) : bool :=
  match ev with
  | Smtp_close => true
  | _ => false
  end.

Definition logins (tr : trace) : nat := List.length (filter is_smtp_login tr).

Definition closes (tr : trace) : nat := List.length (filter is_smtp_close tr).

(** The messages handed to [send_message], in order. *)
Definition sent_bodies (tr : trace) : list html :=
  flat_map (fun ev => match ev with Smtp_send body => [body] | _ => [] end) tr.

(** What every trace of the delivery loop satisfies: no sleep, no request
    to the other services, as many closes as logins, no body but [body],
    no error record. *)
Definition orderly (body : html) (tr : trace) : Prop :=
  slept tr = 0%Z
  /\ calls tr = 0
  /\ requests tr = 0
  /\ logins tr = closes tr
  /\ Forall (eq body) (sent_bodies tr)
  /\ errors tr = [].

(** The services are reached in order: a completion request only once a
    request to the ranking provider was sent, an SMTP session only once a
    completion request was sent.  The flags tell what was sent before [tr]. *)
Fixpoint in_order (requested called : bool) (tr : trace) : bool :=
  match tr with
  | [] => true
  | Http_get :: rest => in_order true called rest
  | Completion_call _ _ :: rest => requested && in_order requested true rest
  | Smtp_open :: rest => called && in_order requested called rest
  | _ :: rest => in_order requested called rest
  end.

(** The sum of the quota waits of the attempts [attempt .. attempt+n-1],
    for a base delay [d]: [d * (i+1) * 2] summed over those [i]. *)
Definition quota_wait_total (d : Z) (n attempt : nat) : Z :=
  d * (2 * Z.of_nat n * Z.of_nat attempt + Z.of_nat n * (Z.of_nat n + 1)).

(** ** Sample runs *)

Module Samples.

(** The endpoint times out once, then answers twice without choices. *)
Definition timeout_then_empty (i : nat) : api_outcome :=
  match i with
  | O => Api_raises (Exn OtherException "Connection timed out")
  | _ => Api_returns (Some (Response (Some [])))
  end.

(** A server error, then a refused key, then completions. *)
Definition unavailable_then_unauthorized (i : nat) : api_outcome :=
  match i with
  | 0 => Api_raises (Exn OtherException "Error code: 503 - Service Unavailable")
  | 1 => Api_raises (Exn OtherException "Error code: 401 - Unauthorized")
  | _ => Api_returns (Some (Response (Some [Choice_message (Some "digest")])))
  end.

(** One empty completion, then a padded text. *)
Definition empty_then_text (i : nat) : api_outcome :=
  match i with
  | 0 => Api_returns (Some (Response (Some [Choice_message (Some "")])))
  | _ => Api_returns (Some (Response (Some [Choice_message (Some "  digest ")])))
  end.

Definition always_completes (i : nat) : api_outcome :=
  Api_returns (Some (Response (Some [Choice_message (Some "digest")]))).

Definition rate_limited : exn :=
  Exn OtherException "Error code: 429 - Rate limit reached".

Definition timed_out : exn := Exn OtherException "Connection timed out".

(** The connection is refused once; the next session would deliver. *)
Definition refused_then_sent (i : nat) : session_outcome :=
  match i with
  | O => Connect_raises (Exn OtherException "[Errno 111] Connection refused")
  | _ => Session_sent
  end.

Definition disconnected : exn :=
  Exn (SMTPException SMTPServerDisconnected) "Connection unexpectedly closed".

Definition always_disconnected (i : nat) : session_outcome :=
  Login_raises disconnected.

Definition three_topics : list topic :=
  [Topic (Some "热") (Some "alpha") (Some (VStr "12345"));
   Topic None (Some "beta") (Some (VInt 999));
   Topic (Some "") (Some "gamma") None].

Definition accepted : WeiboFetcher.envelope :=
  WeiboFetcher.Envelope (Some (VInt 200)) (Some "success")
    (WeiboFetcher.Result_object (Some three_topics)).

Definition refused (m : string) : WeiboFetcher.envelope :=
  WeiboFetcher.Envelope (Some (VInt 230)) (Some m) WeiboFetcher.Result_absent.

Definition full_environ : Main.environ :=
  Main.Environ (Some "tianapi-key") (Some "deepseek-key") None
    (Some "sender@example.com") (Some "secret") (Some "reader@example.com")
    None None.

(** A configured run whose ranking provider refuses the key. *)
Definition refused_run : Main.world :=
  Main.World full_environ (WeiboFetcher.Get_json (refused "key error"))
    always_completes refused_then_sent None None.

(** A configured run in which every service answers. *)
Definition smooth_run : Main.world :=
  Main.World full_environ (WeiboFetcher.Get_json accepted)
    always_completes (fun _ => Session_sent) None None.

(** A configured run whose completion endpoint refuses the key. *)
Definition unauthorized_run : Main.world :=
  Main.World full_environ (WeiboFetcher.Get_json accepted)
    (fun _ => Api_raises (Exn OtherException "Error code: 401 - Unauthorized"))
    (fun _ => Session_sent) None None.

Definition always_rate_limited (i : nat) : api_outcome := Api_raises rate_limited.

Definition always_timed_out (i : nat) : api_outcome := Api_raises timed_out.

(** The endpoint answers every call with blanks. *)
Definition always_blank (i : nat) : api_outcome :=
  Api_returns (Some (Response (Some [Choice_message (Some "   ")]))).

(** A message that names both a quota and a client error. *)
Definition quota_with_401 : exn :=
  Exn OtherException "Error code: 401 - quota exhausted for this key".

(** Two sessions lost, the third delivers. *)
Definition third_time_lucky (i : nat) : session_outcome :=
  match i with
  | 0 | 1 => Send_raises disconnected
  | _ => Session_sent
  end.

(** A configured run whose completion endpoint answers with blanks. *)
Definition blank_run : Main.world :=
  Main.World full_environ (WeiboFetcher.Get_json accepted)
    always_blank (fun _ => Session_sent) None None.

(** A configured run that cannot write the raw ranking. *)
Definition read_only_run : Main.world :=
  Main.World full_environ (WeiboFetcher.Get_json accepted)
    always_completes (fun _ => Session_sent)
    (Some (Exn OtherException "[Errno 30] Read-only file system")) None.

(** A configured run whose mail server drops every session. *)
Definition undelivered_run : Main.world :=
  Main.World full_environ (WeiboFetcher.Get_json accepted)
    always_completes always_disconnected None None.

(** A run without the key of the ranking provider. *)
Definition keyless_run : Main.world :=
  Main.World
    (Main.Environ None (Some "deepseek-key") None
       (Some "sender@example.com") (Some "secret") (Some "reader@example.com")
       None None)
    (WeiboFetcher.Get_json accepted) always_completes (fun _ => Session_sent)
    None None.

(** A configured run that cannot write the summary. *)
Definition full_disk_run : Main.world :=
  Main.World full_environ (WeiboFetcher.Get_json accepted)
    always_completes (fun _ => Session_sent) None
    (Some (Exn OtherException "[Errno 28] No space left on device")).

End Samples.

(** * Properties *)

(** ** Traces *)

Lemma calls_app (tr tr' : trace) : calls (tr ++ tr') = calls tr + calls tr'.
Proof.
  unfold calls. now rewrite filter_app, length_app.
Qed.

Lemma calls_log (l : level) (m : message) (tr : trace) :
  calls (Log l m :: tr) = calls tr.
Proof. reflexivity. Qed.

Lemma calls_call (p : prompt) (max_tokens : Z) (tr : trace) :
  calls (Completion_call p max_tokens :: tr) = S (calls tr).
Proof. reflexivity. Qed.

Lemma sessions_app (tr tr' : trace) :
  sessions (tr ++ tr') = sessions tr + sessions tr'.
Proof.
  unfold sessions. now rewrite filter_app, length_app.
Qed.

Lemma last_cons_app {A : Type} (x : A) (pre post : list A) (d : A) :
  post <> [] -> last (x :: pre ++ post) d = last post d.
Proof.
  intro Hpost.
  change (x :: pre ++ post) with ((x :: pre) ++ post).
  generalize (x :: pre) as l. intro l.
  induction l as [|y l IH]; [reflexivity|].
  simpl. destruct (l ++ post) eqn:E; [|exact IH].
  apply app_eq_nil in E. now destruct E.
Qed.

(** ** The retry loop of the DeepSeek summarizer *)

Section DeepSeekLoop.
Context {py : PyBuiltins}.
Import DeepSeekSummarizer.

Lemma on_response_calls (r : option response) :
  calls (snd (on_response r)) = 0 /\ slept (snd (on_response r)) = 0%Z.
Proof.
  unfold on_response.
  destruct r as [[[[|[t|t|] cs]|]]|]; simpl; auto;
    destruct t as [text|]; simpl; auto;
    destruct (nonempty text); simpl; auto;
    destruct (nonempty (py_strip text)); simpl; auto.
Qed.

Lemma on_exception_calls (self : t) (attempt : nat) (e : exn) :
  calls (snd (on_exception self attempt e)) = 0.
Proof.
  unfold on_exception.
  destruct (classify (exn_str e)); simpl; auto.
  destruct (Z.of_nat attempt <? Z.of_nat (max_retries self) - 1)%Z; reflexivity.
Qed.

Lemma on_exception_flow (self : t) (attempt : nat) (e : exn) :
  fst (on_exception self attempt e) = decides (Api_raises e).
Proof.
  unfold on_exception, decides.
  destruct (classify (exn_str e)); simpl; auto.
  destruct (Z.of_nat attempt <? Z.of_nat (max_retries self) - 1)%Z; reflexivity.
Qed.

Lemma iteration_spec (self : t) (attempt : nat) (o : api_outcome)
      (last_error : option exn) :
  exists tr,
    iteration self attempt o last_error
    = (decides o,
       match o with Api_raises e => Some e | Api_returns _ => last_error end,
       tr)
    /\ calls tr = 0.
Proof.
  destruct o as [e|r]; simpl.
  - pose proof (on_exception_flow self attempt e) as Hf.
    pose proof (on_exception_calls self attempt e) as Hc.
    destruct (on_exception self attempt e) as [f tr]; simpl in *.
    exists tr. now subst f.
  - pose proof (on_response_calls r) as [Hc _].
    destruct (on_response r) as [f tr]; simpl in *.
    now exists tr.
Qed.

(** The loop never sends more requests than it has iterations. *)
Lemma attempts_calls_le (self : t) (api : nat -> api_outcome) (p : prompt)
      (n : nat) :
  forall attempt last_error,
    calls (snd (attempts self api p n attempt last_error)) <= n.
Proof.
  induction n as [|n IH]; intros attempt last_error; simpl; [auto|].
  destruct (iteration_spec self attempt (api attempt) last_error)
    as (tr & -> & Hc).
  destruct (decides (api attempt)).
  - simpl. change (calls (Completion_call p 2000 :: tr)) with (S (calls tr)). lia.
  - specialize (IH (S attempt)
      match api attempt with Api_raises e => Some e | Api_returns _ => last_error end).
    destruct (attempts self api p n (S attempt) _) as [r tr']; simpl in *.
    change (calls (Completion_call p 2000 :: tr ++ tr'))
      with (S (calls (tr ++ tr'))).
    rewrite calls_app. lia.
Qed.

(** [k] attempts in a row that decide nothing: the loop goes on with the
    remaining iterations, having sent [k] requests. *)
Lemma attempts_skip (self : t) (api : nat -> api_outcome) (p : prompt) (k : nat) :
  forall n attempt last_error,
    (forall j, j < k -> decides (api (attempt + j)) = Continue) ->
    exists tr,
      attempts self api p (k + n) attempt last_error
      = (fst (attempts self api p n (attempt + k)
                (last_raised api k attempt last_error)),
         tr ++ snd (attempts self api p n (attempt + k)
                      (last_raised api k attempt last_error)))
      /\ calls tr = k.
Proof.
  induction k as [|k IH]; intros n attempt last_error Hk.
  - exists []. simpl. rewrite Nat.add_0_r.
    now destruct (attempts self api p n attempt last_error).
  - simpl.
    destruct (iteration_spec self attempt (api attempt) last_error)
      as (tr & -> & Hc).
    pose proof (Hk 0 ltac:(lia)) as H0.
    rewrite Nat.add_0_r in H0. rewrite H0.
    destruct (IH n (S attempt)
                match api attempt with
                | Api_raises e => Some e
                | Api_returns _ => last_error
                end) as (tr' & -> & Hc').
    { intros j Hj. replace (S attempt + j) with (attempt + S j) by lia.
      apply Hk. lia. }
    replace (S attempt + k) with (attempt + S k) by lia.
    exists (Completion_call p 2000 :: tr ++ tr'). split.
    + simpl. now rewrite app_assoc.
    + change (calls (Completion_call p 2000 :: tr ++ tr'))
        with (S (calls (tr ++ tr'))).
      rewrite calls_app. lia.
Qed.

End DeepSeekLoop.

Section DeepSeekClaims.
Context {py : PyBuiltins}.
Import DeepSeekSummarizer.

Lemma client_error_iteration (self : t) (attempt : nat) (e : exn)
      (last_error : option exn) :
  classify (exn_str e) = Client ->
  iteration self attempt (Api_raises e) last_error
  = (Return None, Some e,
     [Log WARNING (Msg_attempt_failed (attempt + 1) (exn_str e));
      Log ERROR (Msg_no_retry (exn_str e))]).
Proof.
  intro Hc. unfold iteration, on_exception. now rewrite Hc.
Qed.

(** A Success is the stripped text of the first choice of a response. *)
Lemma decides_success (o : api_outcome) (summary : string) :
  decides o = Return (Some summary) ->
  exists resp text rest,
    o = Api_returns (Some resp)
    /\ (choices resp = Some (Choice_message (Some text) :: rest)
        \/ choices resp = Some (Choice_text (Some text) :: rest))
    /\ summary = py_strip text.
Proof.
  destruct o as [e|r]; simpl.
  - destruct (classify (exn_str e)); discriminate.
  - unfold on_response.
    destruct r as [[[[|[t|t|] cs]|]]|]; simpl; try discriminate;
      (destruct t as [text|]; simpl; [|discriminate]);
      (destruct (nonempty text); simpl; [|discriminate]);
      (destruct (nonempty (py_strip text)); simpl; [|discriminate]);
      intro H; injection H as <-.
    + exists (Response (Some (Choice_message (Some text) :: cs))), text, cs. auto.
    + exists (Response (Some (Choice_text (Some text) :: cs))), text, cs. auto.
Qed.

(** C1 (as amended). [WeiboSummarizer.summarize], which the pipeline runs on
    the topic batch, attempts the completion call exactly once and never
    retries: when the call raises it returns None and its error record
    carries the message of the exception; it returns a text exactly when
    the first choice of the response is a message with content, and that
    text is the content stripped, even when it is empty.
    [DeepSeekSummarizer.summarize], once its content is accepted, sends at
    most [max_retries] completion requests, 3 for a summarizer built by
    [init].  If none of them succeeds or is refused as a client error, it
    returns None after exactly [max_retries] requests and its closing error
    record carries the message of the last exception raised by an attempt,
    if any (an attempt that merely came back empty leaves that record
    unchanged).  If attempt [k] is the first to decide and it is a Success,
    the result is the stripped text of the first choice of that response. *)
Theorem summarize_retries_bounded (self : t) (api : nat -> api_outcome)
        (content context : string) (topics : list topic) :
  rejected content = false ->
  (calls (snd (WeiboSummarizer.summarize api topics)) = 1
   /\ (forall e,
          api 0 = Api_raises e ->
          fst (WeiboSummarizer.summarize api topics) = None
          /\ last (snd (WeiboSummarizer.summarize api topics)) Http_get
             = Log ERROR (Msg_summarize_failed (exn_str e)))
   /\ (forall summary,
          fst (WeiboSummarizer.summarize api topics) = Some summary
          <-> exists text rest,
              api 0 = Api_returns
                        (Some (Response (Some (Choice_message (Some text) :: rest))))
              /\ summary = py_strip text))
  /\ (forall model, max_retries (init model) = 3)
  /\ calls (snd (summarize self api content context)) <= max_retries self
  /\ ((forall j, j < max_retries self -> decides (api j) = Continue) ->
      fst (summarize self api content context) = None
      /\ calls (snd (summarize self api content context)) = max_retries self
      /\ last (snd (summarize self api content context)) Http_get
         = Log ERROR
             (Msg_exhausted (max_retries self)
                (option_map exn_str (last_raised api (max_retries self) 0 None))))
  /\ (forall k summary,
         k < max_retries self ->
         (forall j, j < k -> decides (api j) = Continue) ->
         decides (api k) = Return (Some summary) ->
         fst (summarize self api content context) = Some summary
         /\ calls (snd (summarize self api content context)) = k + 1
         /\ exists resp text rest,
             api k = Api_returns (Some resp)
             /\ (choices resp = Some (Choice_message (Some text) :: rest)
                 \/ choices resp = Some (Choice_text (Some text) :: rest))
             /\ summary = py_strip text).
Proof.
  intro Hacc. split.
  { unfold WeiboSummarizer.summarize, WeiboSummarizer.summarize_body,
      WeiboSummarizer.extract.
    split; [|split].
    - destruct (api 0) as [e|[[[[|[[text|]|text|] rest]|]]|]]; reflexivity.
    - intros e ->. split; reflexivity.
    - intro summary.
      destruct (api 0) as [e|[[[[|[[text|]|text|] rest]|]]|]]; cbn;
        (split; [try discriminate
                |intros (text' & rest' & H & ->); try discriminate]).
      + intros [= <-]. eauto.
      + now injection H as <- _. }
  unfold summarize. rewrite Hacc.
  set (p := Prompt Reddit_template context content).
  split; [reflexivity|]. split; [|split].
  - pose proof (attempts_calls_le self api p (max_retries self) 0 None) as Hle.
    destruct (attempts self api p (max_retries self) 0 None) as [r tr].
    exact Hle.
  - intro Hall.
    destruct (attempts_skip self api p (max_retries self) 0 0 None)
      as (tr & Heq & Hc); [exact Hall|].
    rewrite Nat.add_0_r in Heq. rewrite Heq. cbn [attempts fst snd].
    split; [reflexivity|]. split.
    + change (calls (tr ++ [Log ERROR
               (Msg_exhausted (max_retries self)
                  (option_map exn_str (last_raised api (max_retries self) 0 None)))])
              = max_retries self).
      rewrite calls_app, Hc. unfold calls. simpl. lia.
    + rewrite last_cons_app by discriminate. reflexivity.
  - intros k summary Hk Hskip Hdec.
    destruct (attempts_skip self api p k (max_retries self - k) 0 None)
      as (tr & Heq & Hc); [exact Hskip|].
    replace (k + (max_retries self - k)) with (max_retries self) in Heq by lia.
    rewrite Heq. clear Heq.
    destruct (max_retries self - k) as [|m] eqn:Em; [lia|].
    simpl attempts.
    destruct (iteration_spec self k (api k) (last_raised api k 0 None))
      as (tr' & -> & Hc').
    rewrite Hdec. simpl.
    split; [reflexivity|]. split.
    + change (calls (tr ++ Completion_call p 2000 :: tr') = k + 1).
      rewrite calls_app, Hc.
      change (calls (Completion_call p 2000 :: tr')) with (S (calls tr')). lia.
    + now apply decides_success.
Qed.

(** C2. When the content is accepted and attempt [k] of the retry loop is
    reached and raises an error classified as a client error (the 400, 401,
    403, 404 branch), [summarize] returns None at once: exactly [k + 1]
    requests are sent and the trace ends with the record of the refusal; a
    client error on the first attempt makes one request in all. *)
Theorem client_error_never_retried (self : t) (api : nat -> api_outcome)
        (content context : string) (k : nat) (e : exn) :
  rejected content = false ->
  k < max_retries self ->
  (forall j, j < k -> decides (api j) = Continue) ->
  api k = Api_raises e ->
  classify (exn_str e) = Client ->
  fst (summarize self api content context) = None
  /\ calls (snd (summarize self api content context)) = k + 1
  /\ last (snd (summarize self api content context)) Http_get
     = Log ERROR (Msg_no_retry (exn_str e))
  /\ (k = 0 -> calls (snd (summarize self api content context)) = 1).
Proof.
  intros Hacc Hk Hskip Hapi Hcls.
  assert (Hmain :
    fst (summarize self api content context) = None
    /\ calls (snd (summarize self api content context)) = k + 1
    /\ last (snd (summarize self api content context)) Http_get
       = Log ERROR (Msg_no_retry (exn_str e))).
  { unfold summarize. rewrite Hacc.
    set (p := Prompt Reddit_template context content).
    destruct (attempts_skip self api p k (max_retries self - k) 0 None)
      as (tr & Heq & Hc); [exact Hskip|].
    replace (k + (max_retries self - k)) with (max_retries self) in Heq by lia.
    rewrite Heq. clear Heq.
    destruct (max_retries self - k) as [|m] eqn:Em; [lia|].
    simpl attempts. rewrite Hapi, (client_error_iteration _ _ _ _ Hcls).
    cbn [fst snd].
    split; [reflexivity|]. split.
    - rewrite calls_log, calls_app, Hc, calls_call, !calls_log.
      change (calls []) with 0. lia.
    - rewrite last_cons_app by discriminate. reflexivity. }
  destruct Hmain as (H1 & H2 & H3). repeat split; auto.
  intros ->. exact H2.
Qed.

(** C4. With a base delay of at least 1, the time slept after a
    rate-limit/quota error at attempt [i] is [retry_delay * (i+1) * 2]; it
    grows strictly from attempt [i] to attempt [i+1], and at every attempt it
    is strictly longer than the time slept after an unclassified error,
    which is at most [retry_delay * (i+1)]. *)
Theorem quota_backoff_strictly_longer (self : t) (i : nat) (quota generic : exn) :
  (1 <= retry_delay self)%Z ->
  classify (exn_str quota) = Quota ->
  classify (exn_str generic) = Network ->
  slept (snd (on_exception self i quota))
  = (retry_delay self * (Z.of_nat i + 1) * 2)%Z
  /\ (slept (snd (on_exception self i quota))
      < slept (snd (on_exception self (S i) quota)))%Z
  /\ (slept (snd (on_exception self i generic))
      < slept (snd (on_exception self i quota)))%Z
  /\ network_wait self i = (retry_delay self * (Z.of_nat i + 1))%Z
  /\ (network_wait self i < quota_wait self i)%Z.
Proof.
  intros Hd Hq Hg.
  unfold on_exception. rewrite Hq, Hg.
  unfold quota_wait, network_wait. simpl.
  rewrite !Z.add_0_r.
  repeat split; try nia.
  destruct (Z.of_nat i <? Z.of_nat (max_retries self) - 1)%Z; simpl; nia.
Qed.

End DeepSeekClaims.

(** ** The fetcher *)

Section FetcherClaims.
Import WeiboFetcher.

Lemma slice_to_nonneg {A : Type} (lst : list A) (stop : Z) :
  (0 <= stop)%Z -> slice_to lst stop = firstn (Z.to_nat stop) lst.
Proof.
  intro H. unfold slice_to.
  destruct (Z.ltb_spec stop 0); [lia|reflexivity].
Qed.

Lemma fetch_accepted (data : envelope) (lst : list topic) (limit : Z) :
  code data = Some (VInt 200) ->
  result data = Result_object (Some lst) ->
  fetch_hot_topics (Get_json data) limit
  = (slice_to lst limit,
     [Log INFO Msg_fetch_start; Http_get;
      Log INFO (Msg_fetched (List.length (slice_to lst limit)))]).
Proof.
  intros Hcode Hres.
  unfold fetch_hot_topics, fetch_body, code_not_200.
  rewrite Hcode, Hres. reflexivity.
Qed.

Lemma fetch_refused (data : envelope) (limit : Z) :
  code_not_200 data = true ->
  fetch_hot_topics (Get_json data) limit
  = ([], [Log INFO Msg_fetch_start; Http_get;
          Log ERROR (Msg_api_error (get (msg data) "未知错误"))]).
Proof.
  intro Hcode. unfold fetch_hot_topics, fetch_body.
  rewrite Hcode. reflexivity.
Qed.

(** C6 (as amended). When the envelope carries a status code other than
    200, [fetch_hot_topics] sends its single request, writes the provider's
    message (or the default text when the envelope has none) to the error
    log, and returns the empty list: the message reaches the log, not the
    value handed to the caller. *)
Theorem provider_error_logged_not_returned (data : envelope) (limit : Z) :
  code_not_200 data = true ->
  fst (fetch_hot_topics (Get_json data) limit) = []
  /\ requests (snd (fetch_hot_topics (Get_json data) limit)) = 1
  /\ errors (snd (fetch_hot_topics (Get_json data) limit))
     = [Msg_api_error (get (msg data) "未知错误")]
  /\ last (snd (fetch_hot_topics (Get_json data) limit)) Http_get
     = Log ERROR (Msg_api_error (get (msg data) "未知错误")).
Proof.
  intro Hcode. rewrite (fetch_refused data limit Hcode).
  repeat split; reflexivity.
Qed.

(** C7. For an accepted envelope and a limit that is not negative,
    [fetch_hot_topics] returns the first [limit] entries of the provider's
    list in their order: the whole list when it has at most [limit]
    entries, exactly [limit] entries when it has more, and never more
    entries than the provider sent.  The default limit is 50. *)
Theorem fetch_truncates_to_limit (data : envelope) (lst : list topic) (limit : Z) :
  code data = Some (VInt 200) ->
  result data = Result_object (Some lst) ->
  (0 <= limit)%Z ->
  fst (fetch_hot_topics (Get_json data) limit) = firstn (Z.to_nat limit) lst
  /\ ((Z.of_nat (List.length lst) <= limit)%Z ->
      fst (fetch_hot_topics (Get_json data) limit) = lst)
  /\ ((limit < Z.of_nat (List.length lst))%Z ->
      Z.of_nat (List.length (fst (fetch_hot_topics (Get_json data) limit))) = limit)
  /\ List.length (fst (fetch_hot_topics (Get_json data) limit)) <= List.length lst
  /\ default_limit = 50%Z.
Proof.
  intros Hcode Hres Hlimit.
  rewrite (fetch_accepted data lst limit Hcode Hres). cbn [fst].
  rewrite (slice_to_nonneg lst limit Hlimit).
  split; [reflexivity|]. split; [|split; [|split]].
  - intro Hlen. apply firstn_all2. lia.
  - intro Hlen. rewrite length_firstn. lia.
  - rewrite length_firstn. lia.
  - reflexivity.
Qed.

End FetcherClaims.

(** ** The notifier *)

Section NotifierClaims.
Context {py : PyBuiltins}.
Import WeiboEmailNotifier.

Lemma topics_html_length (topics : list topic) :
  forall i, List.length (topics_html i topics) = List.length topics.
Proof.
  induction topics as [|t rest IH]; intro i; simpl; [reflexivity|].
  now rewrite IH.
Qed.

(** C8. The rendered message holds one row per topic among the first 30 of
    the batch: its number of rows is the smaller of 30 and the size of the
    batch, hence at most 30, and exactly 30 for a batch of 50. *)
Theorem rendered_rows_at_most_30 (summary : string) (topics : list topic) (t : topic) :
  List.length (html_rows (_generate_html summary topics))
  = Nat.min 30 (List.length topics)
  /\ List.length (html_rows (_generate_html summary topics)) <= 30
  /\ List.length (html_rows (_generate_html summary (repeat t 50))) = 30
  /\ map row_rank (html_rows (_generate_html summary topics))
     = seq 1 (Nat.min 30 (List.length topics)).
Proof.
  assert (Hlen : forall l : list topic,
             List.length (html_rows (_generate_html summary l))
             = Nat.min 30 (List.length l)).
  { intro l. unfold _generate_html. cbn [html_rows].
    rewrite topics_html_length, (slice_to_nonneg l 30) by lia.
    now rewrite length_firstn. }
  split; [apply Hlen|]. split; [rewrite Hlen; lia|].
  split; [rewrite Hlen, repeat_length; reflexivity|].
  unfold _generate_html. cbn [html_rows].
  rewrite <- (length_firstn 30 topics).
  rewrite (slice_to_nonneg topics 30) by lia.
  change (Z.to_nat 30) with 30.
  generalize (firstn 30 topics) as l. generalize 1 as i.
  intros i l. revert i.
  induction l as [|x l IH]; intro i; simpl; [reflexivity|].
  now rewrite IH.
Qed.

End NotifierClaims.

Section DeliveryLoop.
Context {py : PyBuiltins}.
Import WeiboEmailNotifier.

Lemma sessions_log (l : level) (m : message) (tr : trace) :
  sessions (Log l m :: tr) = sessions tr.
Proof. reflexivity. Qed.

Lemma session_spec (body : html) (o : session_outcome) :
  exists tr,
    session body o
    = (match raised o with Some e => Raise e | None => Ok tt end, tr)
    /\ sessions tr = 1.
Proof.
  destruct o; simpl; eexists; split; reflexivity.
Qed.

(** An attempt that fails with an SMTP exception before the third one:
    the loop goes on. *)
Lemma deliver_retry (smtp : nat -> session_outcome) (body : html)
      (n attempt : nat) :
  retryable (smtp attempt) = true ->
  attempt <> 2 ->
  exists pre,
    deliver smtp body (S n) attempt
    = (fst (deliver smtp body n (S attempt)),
       pre ++ snd (deliver smtp body n (S attempt)))
    /\ sessions pre = 1.
Proof.
  intros Hretry Hne. cbn [deliver].
  destruct (session_spec body (smtp attempt)) as (tr & -> & Hs).
  unfold retryable, is_smtp in Hretry.
  destruct (raised (smtp attempt)) as [e|]; [|discriminate].
  destruct (exn_kind e); try discriminate.
  destruct (Nat.eqb_spec attempt 2) as [|_]; [contradiction|].
  destruct (deliver smtp body n (S attempt)) as [r tr'].
  exists (Log INFO (Msg_send_attempt (attempt + 1))
            :: tr ++ [Log WARNING (Msg_send_attempt_failed (attempt + 1) (exn_str e))]).
  split.
  - unfold bind, emit. cbn. rewrite <- !app_assoc. reflexivity.
  - rewrite sessions_log, sessions_app, Hs. reflexivity.
Qed.

(** Every other outcome of an attempt ends the loop. *)
Lemma deliver_ends (smtp : nat -> session_outcome) (body : html)
      (n attempt : nat) :
  exists tr,
    sessions tr = 1
    /\ match raised (smtp attempt) with
       | None => deliver smtp body (S n) attempt = (Ok true, tr)
       | Some e =>
         (is_smtp e = false \/ attempt = 2) ->
         deliver smtp body (S n) attempt = (Raise e, tr)
       end.
Proof.
  cbn [deliver].
  destruct (session_spec body (smtp attempt)) as (tr & -> & Hs).
  destruct (raised (smtp attempt)) as [e|].
  - unfold is_smtp. destruct (exn_kind e) eqn:Ek.
    + exists (Log INFO (Msg_send_attempt (attempt + 1)) :: tr).
      split; [now rewrite sessions_log|]. intros _.
      unfold bind, emit. cbn. reflexivity.
    + exists (Log INFO (Msg_send_attempt (attempt + 1))
                :: tr ++ [Log WARNING
                            (Msg_send_attempt_failed (attempt + 1) (exn_str e))]).
      split; [rewrite sessions_log, sessions_app, Hs; reflexivity|].
      intros [H| ->]; [discriminate|].
      unfold bind, emit. cbn. rewrite ?app_nil_r. reflexivity.
    + exists (Log INFO (Msg_send_attempt (attempt + 1)) :: tr).
      split; [now rewrite sessions_log|]. intros _.
      unfold bind, emit. cbn. reflexivity.
  - exists (Log INFO (Msg_send_attempt (attempt + 1)) :: tr ++ [Log INFO Msg_sent]).
    split; [rewrite sessions_log, sessions_app, Hs; reflexivity|].
    unfold bind, emit. cbn. rewrite ?app_nil_r. reflexivity.
Qed.

Lemma deliver_skip (smtp : nat -> session_outcome) (body : html) (k : nat) :
  forall n attempt,
    attempt + k <= 2 ->
    (forall j, j < k -> retryable (smtp (attempt + j)) = true) ->
    exists pre,
      deliver smtp body (k + n) attempt
      = (fst (deliver smtp body n (attempt + k)),
         pre ++ snd (deliver smtp body n (attempt + k)))
      /\ sessions pre = k.
Proof.
  induction k as [|k IH]; intros n attempt Hle Hk.
  - exists []. rewrite Nat.add_0_r. simpl.
    now destruct (deliver smtp body n attempt).
  - destruct (deliver_retry smtp body (k + n) attempt) as (pre & Heq & Hs).
    { rewrite <- (Nat.add_0_r attempt). apply Hk. lia. }
    { lia. }
    destruct (IH n (S attempt)) as (pre' & Heq' & Hs').
    { lia. }
    { intros j Hj. replace (S attempt + j) with (attempt + S j) by lia.
      apply Hk. lia. }
    replace (S attempt + k) with (attempt + S k) in Heq' by lia.
    exists (pre ++ pre'). split.
    + change (S k + n) with (S (k + n)). rewrite Heq, Heq'. cbn [fst snd].
      now rewrite app_assoc.
    + rewrite sessions_app. lia.
Qed.

Lemma deliver_sessions_le (smtp : nat -> session_outcome) (body : html) (n : nat) :
  forall attempt, sessions (snd (deliver smtp body n attempt)) <= n.
Proof.
  induction n as [|n IH]; intro attempt; [simpl; auto|].
  destruct (deliver_ends smtp body n attempt) as (tr & Hs & Hend).
  destruct (raised (smtp attempt)) as [e|] eqn:Hr.
  - destruct (is_smtp e) eqn:He.
    + destruct (Nat.eq_dec attempt 2) as [H2|H2].
      * rewrite Hend by auto. simpl. lia.
      * destruct (deliver_retry smtp body n attempt) as (pre & -> & Hp); auto.
        { unfold retryable. now rewrite Hr. }
        cbn [snd]. rewrite sessions_app. specialize (IH (S attempt)). lia.
    + rewrite Hend by auto. simpl. lia.
  - rewrite Hend. simpl. lia.
Qed.

End DeliveryLoop.

Section DeliveryClaims.
Context {py : PyBuiltins}.
Import WeiboEmailNotifier.

(** C5 (as amended). [send_email] opens at most 3 sessions.  A session that
    fails with an [smtplib.SMTPException], whatever its subclass, is
    followed by a new session until one delivers or three have failed;
    after the third such failure the exception is logged and False is
    returned.  An exception of any other class ends the delivery at once:
    it is logged and False is returned without another session. *)
Theorem smtp_errors_retried_up_to_three (smtp : nat -> session_outcome)
        (summary : string) (topics : list topic) :
  sessions (snd (send_email smtp summary topics)) <= 3
  /\ (forall k,
         k < 3 ->
         (forall j, j < k -> retryable (smtp j) = true) ->
         smtp k = Session_sent ->
         fst (send_email smtp summary topics) = true
         /\ sessions (snd (send_email smtp summary topics)) = k + 1)
  /\ (forall e,
         (forall j, j < 3 -> retryable (smtp j) = true) ->
         raised (smtp 2) = Some e ->
         fst (send_email smtp summary topics) = false
         /\ sessions (snd (send_email smtp summary topics)) = 3
         /\ last (snd (send_email smtp summary topics)) Http_get
            = Log ERROR (Msg_send_failed (exn_str e)))
  /\ (forall k e,
         k < 3 ->
         (forall j, j < k -> retryable (smtp j) = true) ->
         raised (smtp k) = Some e ->
         is_smtp e = false ->
         fst (send_email smtp summary topics) = false
         /\ sessions (snd (send_email smtp summary topics)) = k + 1
         /\ last (snd (send_email smtp summary topics)) Http_get
            = Log ERROR (Msg_send_failed (exn_str e))).
Proof.
  unfold send_email, try_except.
  set (body := _generate_html summary topics).
  assert (Hraise : forall k e,
             k < 3 ->
             (forall j, j < k -> retryable (smtp j) = true) ->
             raised (smtp k) = Some e ->
             is_smtp e = false \/ k = 2 ->
             exists tr, deliver smtp body 3 0 = (Raise e, tr) /\ sessions tr = k + 1).
  { intros k e Hk Hskip Hr Hwhy.
    destruct (deliver_skip smtp body k (3 - k) 0) as (pre & Heq & Hs);
      [lia|exact Hskip|].
    replace (k + (3 - k)) with 3 in Heq by lia.
    destruct (3 - k) as [|m] eqn:Em; [lia|].
    destruct (deliver_ends smtp body m (0 + k)) as (tr & Hs' & Hend).
    simpl (0 + k) in *. rewrite Hr in Hend. rewrite (Hend Hwhy) in Heq.
    exists (pre ++ tr). split; [exact Heq|].
    rewrite sessions_app. lia. }
  split; [|split; [|split]].
  - pose proof (deliver_sessions_le smtp body 3 0) as Hle.
    destruct (deliver smtp body 3 0) as [[b|e] tr]; cbn [snd] in *; [exact Hle|].
    rewrite sessions_app, sessions_log. change (sessions []) with 0. lia.
  - intros k Hk Hskip Hsent.
    destruct (deliver_skip smtp body k (3 - k) 0) as (pre & Heq & Hs);
      [lia|exact Hskip|].
    replace (k + (3 - k)) with 3 in Heq by lia.
    destruct (3 - k) as [|m] eqn:Em; [lia|].
    destruct (deliver_ends smtp body m (0 + k)) as (tr & Hs' & Hend).
    simpl (0 + k) in *. rewrite Hsent in Hend. cbn [raised] in Hend.
    rewrite Hend in Heq. rewrite Heq. cbn [fst snd].
    split; [reflexivity|]. rewrite sessions_app. lia.
  - intros e Hall Hr.
    destruct (Hraise 2 e) as (tr & -> & Hs); auto.
    cbn [fst snd]. split; [reflexivity|]. split.
    + rewrite sessions_app, Hs. reflexivity.
    + apply last_last.
  - intros k e Hk Hskip Hr He.
    destruct (Hraise k e) as (tr & -> & Hs); auto.
    cbn [fst snd]. split; [reflexivity|]. split.
    + rewrite sessions_app, Hs, sessions_log. change (sessions []) with 0. lia.
    + apply last_last.
Qed.

End DeliveryClaims.

(** ** The orchestrator *)

Section PipelineClaims.
Context {py : PyBuiltins}.
Import Main.

Lemma fetch_trace_quiet (http : WeiboFetcher.http_outcome) (limit : Z) :
  calls (snd (WeiboFetcher.fetch_hot_topics http limit)) = 0
  /\ sessions (snd (WeiboFetcher.fetch_hot_topics http limit)) = 0
  /\ later_stages_silent (snd (WeiboFetcher.fetch_hot_topics http limit)) = true.
Proof.
  unfold WeiboFetcher.fetch_hot_topics, WeiboFetcher.fetch_body.
  destruct http as [e|data].
  - cbn. destruct (exn_kind e); cbn; auto.
  - destruct (WeiboFetcher.code_not_200 data); [cbn; auto|].
    destruct (WeiboFetcher.result data) as [| |lst]; cbn; auto.
Qed.

Lemma weibo_summarize_one_call (api : nat -> api_outcome) (topics : list topic) :
  calls (snd (WeiboSummarizer.summarize api topics)) = 1.
Proof.
  unfold WeiboSummarizer.summarize, WeiboSummarizer.summarize_body,
    WeiboSummarizer.extract.
  destruct (api 0) as [e|[[[[|[[text|]|text|] rest]|]]|]]; reflexivity.
Qed.

(** With a complete configuration and no topics from the fetcher, [main]
    logs the failure of the fetch step and returns False. *)
Lemma main_without_topics (w : world) :
  configured (env w) = true ->
  fst (WeiboFetcher.fetch_hot_topics (http w) 50) = [] ->
  main w
  = (false,
     Log INFO Msg_banner :: Log INFO (Msg_step 1) :: Log INFO Msg_fetcher_init
       :: snd (WeiboFetcher.fetch_hot_topics (http w) 50)
       ++ [Log ERROR Msg_no_topics]).
Proof.
  unfold configured, main, main_body. intros Hconf Hfetch.
  destruct (py_int (get (SMTP_PORT (env w)) "465")) as [port|]; [|discriminate].
  apply andb_true_iff in Hconf as [Hconf Hmail].
  apply andb_true_iff in Hconf as [Hkey Hdeep].
  unfold bind at 1. cbn [emit]. unfold bind at 1. cbn [ret].
  rewrite Hkey, Hdeep, Hmail. cbn [negb].
  destruct (WeiboFetcher.fetch_hot_topics (http w) 50) as [topics tr].
  cbn [fst snd] in *. subst topics.
  unfold WeiboFetcher.init, bind, emit, call, ret, try_except. cbn.
  rewrite ?app_nil_r. reflexivity.
Qed.

(** Whatever the configuration, a run whose fetch gives no topics returns
    False without a completion request. *)
Lemma main_no_topics_no_call (w : world) :
  fst (WeiboFetcher.fetch_hot_topics (http w) 50) = [] ->
  fst (main w) = false /\ calls (snd (main w)) = 0.
Proof.
  intro Hfetch.
  destruct (configured (env w)) eqn:Hconf.
  - rewrite (main_without_topics w Hconf Hfetch). cbn [fst snd].
    split; [reflexivity|].
    rewrite !calls_log, calls_app.
    destruct (fetch_trace_quiet (http w) 50) as (-> & _). reflexivity.
  - unfold configured in Hconf. unfold main, main_body.
    destruct (py_int (get (SMTP_PORT (env w)) "465")) as [port|];
      [|split; reflexivity].
    unfold bind at 1. cbn [emit]. unfold bind at 1. cbn [ret].
    destruct (truthy (TIANAPI_KEY (env w))); [|split; reflexivity].
    destruct (truthy (DEEPSEEK_API_KEY (env w))); [|split; reflexivity].
    cbn [andb negb] in *. rewrite Hconf. split; reflexivity.
Qed.

End PipelineClaims.

Section StageClaims.
Context {py : PyBuiltins}.
Import Main.

(** C3 (as amended). [DeepSeekSummarizer.summarize] returns None without a
    completion request when its content is empty or strips to the empty
    string.  [WeiboSummarizer.summarize] has no such check: it sends its one
    request even for an empty batch.  In the pipeline it is never given one:
    when the fetcher yields no topics, [main] returns False and no
    completion request is sent. *)
Theorem empty_content_rejected_before_call (self : DeepSeekSummarizer.t)
        (api : nat -> api_outcome) (content context : string) (w : world) :
  content = EmptyString \/ py_strip content = EmptyString ->
  fst (WeiboFetcher.fetch_hot_topics (http w) 50) = [] ->
  DeepSeekSummarizer.summarize self api content context
  = (None, [Log WARNING Msg_content_empty])
  /\ calls (snd (DeepSeekSummarizer.summarize self api content context)) = 0
  /\ calls (snd (WeiboSummarizer.summarize api [])) = 1
  /\ fst (main w) = false
  /\ calls (snd (main w)) = 0.
Proof.
  intros Hempty Hfetch.
  assert (Hrej : DeepSeekSummarizer.rejected content = true).
  { unfold DeepSeekSummarizer.rejected.
    destruct Hempty as [-> | ->]; [reflexivity|apply orb_true_r]. }
  assert (Hsum : DeepSeekSummarizer.summarize self api content context
                 = (None, [Log WARNING Msg_content_empty])).
  { unfold DeepSeekSummarizer.summarize. now rewrite Hrej. }
  split; [exact Hsum|]. split; [now rewrite Hsum|].
  split; [apply weibo_summarize_one_call|].
  now apply main_no_topics_no_call.
Qed.

(** C9. In a configured run whose ranking provider answers with a status
    code other than 200, [main] returns False after logging that no topics
    were obtained (the abort of the fetch stage); the trace of the run holds
    the banner, the fetcher's records and that error only: the summarizer
    and the notifier are neither constructed nor called, no completion
    request is sent and no SMTP session is opened. *)
Theorem provider_error_aborts_at_fetch (w : world) (data : WeiboFetcher.envelope) :
  configured (env w) = true ->
  http w = WeiboFetcher.Get_json data ->
  WeiboFetcher.code_not_200 data = true ->
  main w
  = (false,
     [Log INFO Msg_banner; Log INFO (Msg_step 1); Log INFO Msg_fetcher_init;
      Log INFO Msg_fetch_start; Http_get;
      Log ERROR (Msg_api_error (get (WeiboFetcher.msg data) "未知错误"));
      Log ERROR Msg_no_topics])
  /\ aborted_stage (snd (main w)) = Some Stage_fetch
  /\ later_stages_silent (snd (main w)) = true
  /\ calls (snd (main w)) = 0
  /\ sessions (snd (main w)) = 0.
Proof.
  intros Hconf Hhttp Hcode.
  assert (Hmain : main w
    = (false,
       [Log INFO Msg_banner; Log INFO (Msg_step 1); Log INFO Msg_fetcher_init;
        Log INFO Msg_fetch_start; Http_get;
        Log ERROR (Msg_api_error (get (WeiboFetcher.msg data) "未知错误"));
        Log ERROR Msg_no_topics])).
  { rewrite (main_without_topics w Hconf);
      rewrite Hhttp, (fetch_refused data 50 Hcode); reflexivity. }
  rewrite Hmain. repeat split; reflexivity.
Qed.

(** C10. Each stage hands the orchestrator a plain value whatever is raised
    inside it: an exception raised in the body of [fetch_hot_topics] gives
    the empty list, one raised in the body of [summarize] gives None, one
    raised by the delivery loop of [send_email] gives False.  In particular
    a failed request, a provider error and an accepted envelope with an
    empty ranking all give the same empty list. *)
Theorem stages_return_plain_values (http : WeiboFetcher.http_outcome) (limit : Z)
        (api : nat -> api_outcome) (topics : list topic)
        (smtp : nat -> session_outcome) (summary : string) :
  (forall e, fst (WeiboFetcher.fetch_body http limit) = Raise e ->
             fst (WeiboFetcher.fetch_hot_topics http limit) = [])
  /\ (forall e, fst (WeiboSummarizer.summarize_body api topics) = Raise e ->
                fst (WeiboSummarizer.summarize api topics) = None)
  /\ (forall e,
         fst (WeiboEmailNotifier.deliver smtp
                (WeiboEmailNotifier._generate_html summary topics) 3 0) = Raise e ->
         fst (WeiboEmailNotifier.send_email smtp summary topics) = false)
  /\ (forall e, fst (WeiboFetcher.fetch_hot_topics (WeiboFetcher.Get_raises e) limit) = [])
  /\ (forall e, api 0 = Api_raises e ->
                fst (WeiboSummarizer.summarize api topics) = None)
  /\ (forall data,
         WeiboFetcher.code_not_200 data = true ->
         fst (WeiboFetcher.fetch_hot_topics (WeiboFetcher.Get_json data) limit)
         = fst (WeiboFetcher.fetch_hot_topics
                  (WeiboFetcher.Get_json
                     (WeiboFetcher.Envelope (Some (VInt 200)) None
                        (WeiboFetcher.Result_object (Some []))))
                  limit)
         /\ fst (WeiboFetcher.fetch_hot_topics (WeiboFetcher.Get_json data) limit) = []).
Proof.
  split; [|split; [|split; [|split; [|split]]]].
  - intros e He. unfold WeiboFetcher.fetch_hot_topics, try_except.
    destruct (WeiboFetcher.fetch_body http limit) as [[v|e'] tr];
      cbn [fst] in He; [discriminate|].
    destruct (exn_kind e'); reflexivity.
  - intros e He. unfold WeiboSummarizer.summarize, try_except, bind.
    destruct (WeiboSummarizer.summarize_body api topics) as [[v|e'] tr];
      cbn [fst] in He; [discriminate|reflexivity].
  - intros e He. unfold WeiboEmailNotifier.send_email, try_except.
    destruct (WeiboEmailNotifier.deliver smtp _ 3 0) as [[v|e'] tr];
      cbn [fst] in He; [discriminate|reflexivity].
  - intro e. unfold WeiboFetcher.fetch_hot_topics, WeiboFetcher.fetch_body.
    cbn. destruct (exn_kind e); reflexivity.
  - intros e He. unfold WeiboSummarizer.summarize, WeiboSummarizer.summarize_body.
    rewrite He. reflexivity.
  - intros data Hcode. rewrite (fetch_refused data limit Hcode).
    cbn [fst]. split; [|reflexivity].
    unfold WeiboFetcher.fetch_hot_topics, WeiboFetcher.fetch_body. cbn.
    unfold slice_to. destruct (limit <? 0)%Z; cbn; now rewrite firstn_nil.
Qed.

End StageClaims.

(** ** The claims on sample runs *)

Import Samples.

Example classify_samples :
  DeepSeekSummarizer.classify (exn_str rate_limited) = DeepSeekSummarizer.Quota
  /\ DeepSeekSummarizer.classify (exn_str timed_out) = DeepSeekSummarizer.Network
  /\ DeepSeekSummarizer.classify "Error code: 401 - Unauthorized"
     = DeepSeekSummarizer.Client
  /\ DeepSeekSummarizer.classify "Error code: 503 - Service Unavailable"
     = DeepSeekSummarizer.Server.
Proof. repeat split; reflexivity. Qed.

Example summarize_second_attempt :
  fst (DeepSeekSummarizer.summarize (DeepSeekSummarizer.init "deepseek-chat")
         empty_then_text "topics" "")
  = Some "digest".
Proof. reflexivity. Qed.

Lemma below_three (P : nat -> Prop) :
  P 0 -> P 1 -> P 2 -> forall j, j < 3 -> P j.
Proof.
  intros H0 H1 H2 j Hj.
  destruct j as [|[|[|j]]]; [exact H0|exact H1|exact H2|].
  exfalso. apply (Nat.lt_irrefl 3).
  apply Nat.le_lt_trans with (S (S (S j))); [|exact Hj].
  apply le_n_S, le_n_S, le_n_S, Nat.le_0_l.
Defined.

Lemma summarize_retries_bounded_witness :
  DeepSeekSummarizer.rejected "topics" = false
  /\ calls (snd (WeiboSummarizer.summarize timeout_then_empty three_topics)) = 1
  /\ fst (WeiboSummarizer.summarize timeout_then_empty three_topics) = None
  /\ calls (snd (DeepSeekSummarizer.summarize
                   (DeepSeekSummarizer.init "deepseek-chat")
                   timeout_then_empty "topics" "")) <= 3
  /\ fst (DeepSeekSummarizer.summarize
            (DeepSeekSummarizer.init "deepseek-chat")
            timeout_then_empty "topics" "") = None
  /\ last (snd (DeepSeekSummarizer.summarize
                  (DeepSeekSummarizer.init "deepseek-chat")
                  timeout_then_empty "topics" "")) Http_get
     = Log ERROR (Msg_exhausted 3 (Some "Connection timed out")).
Proof.
  destruct (summarize_retries_bounded (py := ascii_builtins)
              (DeepSeekSummarizer.init "deepseek-chat")
              timeout_then_empty "topics" "" three_topics eq_refl)
    as ((Hone & Hraises & _) & _ & Hle & Hexhausted & _).
  destruct Hexhausted as (Hnone & _ & Hlast).
  { apply below_three; reflexivity. }
  split; [reflexivity|]. split; [exact Hone|].
  split; [exact (proj1 (Hraises timed_out eq_refl))|].
  split; [exact Hle|]. split; [exact Hnone|exact Hlast].
Defined.

(** C1, the claim as worded: the closing record would carry the reason of
    the last failure observed.  After a timeout followed by two answers
    without choices it carries the timeout. *)
Lemma last_failure_not_always_carried :
  ~ (forall (api : nat -> api_outcome) (content : string),
        DeepSeekSummarizer.rejected content = false ->
        (forall j, j < 3 -> decides (api j) = DeepSeekSummarizer.Continue) ->
        carried_reason
          (snd (DeepSeekSummarizer.summarize
                  (DeepSeekSummarizer.init "deepseek-chat") api content ""))
        = last_observed_failure api 3).
Proof.
  intro H.
  specialize (H timeout_then_empty "topics" eq_refl).
  assert (Hall : forall j, j < 3 ->
            decides (timeout_then_empty j) = DeepSeekSummarizer.Continue).
  { apply below_three; reflexivity. }
  specialize (H Hall). vm_compute in H. discriminate H.
Qed.

Lemma client_error_never_retried_witness :
  DeepSeekSummarizer.rejected "topics" = false
  /\ unavailable_then_unauthorized 1
     = Api_raises (Exn OtherException "Error code: 401 - Unauthorized")
  /\ fst (DeepSeekSummarizer.summarize
            (DeepSeekSummarizer.init "deepseek-chat")
            unavailable_then_unauthorized "topics" "") = None
  /\ calls (snd (DeepSeekSummarizer.summarize
                   (DeepSeekSummarizer.init "deepseek-chat")
                   unavailable_then_unauthorized "topics" "")) = 2.
Proof.
  destruct (client_error_never_retried (py := ascii_builtins)
              (DeepSeekSummarizer.init "deepseek-chat")
              unavailable_then_unauthorized "topics" "" 1
              (Exn OtherException "Error code: 401 - Unauthorized"))
    as (Hnone & Hcalls & _).
  - reflexivity.
  - apply le_n_S, le_n_S, Nat.le_0_l.
  - intros j Hj. destruct j as [|j]; [reflexivity|].
    exfalso. apply (Nat.nlt_0_r j). apply Nat.succ_lt_mono. exact Hj.
  - reflexivity.
  - reflexivity.
  - split; [reflexivity|]. split; [reflexivity|].
    split; [exact Hnone|exact Hcalls].
Defined.

Lemma quota_backoff_strictly_longer_witness :
  (1 <= DeepSeekSummarizer.retry_delay (DeepSeekSummarizer.init "deepseek-chat"))%Z
  /\ slept (snd (DeepSeekSummarizer.on_exception
                   (DeepSeekSummarizer.init "deepseek-chat") 0 rate_limited)) = 4%Z
  /\ (slept (snd (DeepSeekSummarizer.on_exception
                    (DeepSeekSummarizer.init "deepseek-chat") 0 rate_limited))
      < slept (snd (DeepSeekSummarizer.on_exception
                      (DeepSeekSummarizer.init "deepseek-chat") 1 rate_limited)))%Z
  /\ (slept (snd (DeepSeekSummarizer.on_exception
                    (DeepSeekSummarizer.init "deepseek-chat") 0 timed_out))
      < slept (snd (DeepSeekSummarizer.on_exception
                      (DeepSeekSummarizer.init "deepseek-chat") 0 rate_limited)))%Z.
Proof.
  assert (Hdelay : (1 <= DeepSeekSummarizer.retry_delay
                           (DeepSeekSummarizer.init "deepseek-chat"))%Z).
  { discriminate. }
  destruct (quota_backoff_strictly_longer (py := ascii_builtins)
              (DeepSeekSummarizer.init "deepseek-chat") 0 rate_limited timed_out
              Hdelay eq_refl eq_refl)
    as (Hformula & Hgrows & Hlonger & _).
  split; [exact Hdelay|]. split; [exact Hformula|]. split; [exact Hgrows|exact Hlonger].
Defined.

Lemma empty_content_rejected_before_call_witness :
  py_strip "   " = EmptyString
  /\ fst (WeiboFetcher.fetch_hot_topics (Main.http refused_run) 50) = []
  /\ DeepSeekSummarizer.summarize (DeepSeekSummarizer.init "deepseek-chat")
       always_completes "   " ""
     = (None, [Log WARNING Msg_content_empty])
  /\ fst (Main.main refused_run) = false
  /\ calls (snd (Main.main refused_run)) = 0.
Proof.
  destruct (empty_content_rejected_before_call (py := ascii_builtins)
              (DeepSeekSummarizer.init "deepseek-chat")
              always_completes "   " "" refused_run
              (or_intror eq_refl) eq_refl)
    as (Hnone & _ & _ & Hfalse & Hcalls).
  split; [reflexivity|]. split; [reflexivity|].
  split; [exact Hnone|]. split; [exact Hfalse|exact Hcalls].
Defined.

(** C3, the claim as worded: an empty batch would give None without a
    request.  [WeiboSummarizer.summarize] sends the request and returns the
    text that comes back. *)
Lemma empty_batch_reaches_endpoint :
  ~ (forall api : nat -> api_outcome,
        fst (WeiboSummarizer.summarize api []) = None
        /\ calls (snd (WeiboSummarizer.summarize api [])) = 0).
Proof.
  intro H. destruct (H always_completes) as [Hnone _].
  vm_compute in Hnone. discriminate Hnone.
Qed.

Lemma smtp_errors_retried_up_to_three_witness :
  raised (always_disconnected 2) = Some disconnected
  /\ fst (WeiboEmailNotifier.send_email always_disconnected "digest" three_topics)
     = false
  /\ sessions (snd (WeiboEmailNotifier.send_email always_disconnected
                      "digest" three_topics)) = 3
  /\ last (snd (WeiboEmailNotifier.send_email always_disconnected
                  "digest" three_topics)) Http_get
     = Log ERROR (Msg_send_failed "Connection unexpectedly closed").
Proof.
  destruct (smtp_errors_retried_up_to_three (py := ascii_builtins)
              always_disconnected "digest" three_topics)
    as (_ & _ & Hthree & _).
  destruct (Hthree disconnected) as (Hfalse & Hsessions & Hlast).
  - apply below_three; reflexivity.
  - reflexivity.
  - split; [reflexivity|]. split; [exact Hfalse|].
    split; [exact Hsessions|exact Hlast].
Defined.

(** C5, the claim as worded: any exception of a session would be followed
    by another attempt.  A refused connection is not an SMTPException: the
    delivery ends there although the next session would have succeeded. *)
Lemma connection_error_not_retried :
  ~ (forall (smtp : nat -> session_outcome) (summary : string)
            (topics : list topic) (e : exn),
        smtp 0 = Connect_raises e ->
        smtp 1 = Session_sent ->
        fst (WeiboEmailNotifier.send_email smtp summary topics) = true).
Proof.
  intro H.
  specialize (H refused_then_sent "digest" three_topics
                (Exn OtherException "[Errno 111] Connection refused")
                eq_refl eq_refl).
  vm_compute in H. discriminate H.
Qed.

Example connection_error_one_session :
  WeiboEmailNotifier.send_email refused_then_sent "digest" []
  = (false,
     [Log INFO (Msg_send_attempt 1); Smtp_open;
      Log ERROR (Msg_send_failed "[Errno 111] Connection refused")]).
Proof. reflexivity. Qed.

Lemma provider_error_logged_not_returned_witness :
  WeiboFetcher.code_not_200 (refused "key error") = true
  /\ fst (WeiboFetcher.fetch_hot_topics (WeiboFetcher.Get_json (refused "key error")) 50)
     = []
  /\ errors (snd (WeiboFetcher.fetch_hot_topics
                    (WeiboFetcher.Get_json (refused "key error")) 50))
     = [Msg_api_error "key error"].
Proof.
  destruct (provider_error_logged_not_returned (refused "key error") 50 eq_refl)
    as (Hempty & _ & Herrors & _).
  split; [reflexivity|]. split; [exact Hempty|exact Herrors].
Defined.

(** C6, the claim as worded: the provider's message would reach the caller.
    No reading of the returned value recovers it: two refusals with
    different messages return the same empty list. *)
Lemma provider_message_not_in_returned_value :
  ~ (exists read : list topic -> option string,
        forall (data : WeiboFetcher.envelope) (limit : Z),
          WeiboFetcher.code_not_200 data = true ->
          read (fst (WeiboFetcher.fetch_hot_topics (WeiboFetcher.Get_json data) limit))
          = WeiboFetcher.msg data).
Proof.
  intros [read H].
  pose proof (H (refused "key error") 50%Z eq_refl) as H1.
  pose proof (H (refused "quota used up") 50%Z eq_refl) as H2.
  cbn in H1, H2. rewrite H1 in H2. discriminate H2.
Qed.

Lemma fetch_truncates_to_limit_witness :
  WeiboFetcher.code accepted = Some (VInt 200)
  /\ WeiboFetcher.result accepted = WeiboFetcher.Result_object (Some three_topics)
  /\ (0 <= 2)%Z
  /\ fst (WeiboFetcher.fetch_hot_topics (WeiboFetcher.Get_json accepted) 2)
     = firstn 2 three_topics
  /\ fst (WeiboFetcher.fetch_hot_topics (WeiboFetcher.Get_json accepted) 50)
     = three_topics.
Proof.
  assert (H2 : (0 <= 2)%Z) by discriminate.
  assert (H50 : (0 <= 50)%Z) by discriminate.
  destruct (fetch_truncates_to_limit accepted three_topics 2 eq_refl eq_refl H2)
    as (Hfirst & _).
  destruct (fetch_truncates_to_limit accepted three_topics 50 eq_refl eq_refl H50)
    as (_ & Hall & _).
  split; [reflexivity|]. split; [reflexivity|]. split; [exact H2|].
  split; [exact Hfirst|]. apply Hall. discriminate.
Defined.

Example rendered_rows_of_three :
  map row_heat (html_rows (WeiboEmailNotifier._generate_html "digest" three_topics))
  = [Heat_scaled 12345; Heat_plain 999; Heat_plain 0].
Proof. reflexivity. Qed.

Lemma provider_error_aborts_at_fetch_witness :
  Main.configured (Main.env refused_run) = true
  /\ Main.http refused_run = WeiboFetcher.Get_json (refused "key error")
  /\ WeiboFetcher.code_not_200 (refused "key error") = true
  /\ fst (Main.main refused_run) = false
  /\ aborted_stage (snd (Main.main refused_run)) = Some Stage_fetch
  /\ later_stages_silent (snd (Main.main refused_run)) = true.
Proof.
  destruct (provider_error_aborts_at_fetch (py := ascii_builtins)
              refused_run (refused "key error") eq_refl eq_refl eq_refl)
    as (Hmain & Hstage & Hsilent & _).
  split; [reflexivity|]. split; [reflexivity|]. split; [reflexivity|].
  split; [now rewrite Hmain|]. split; [exact Hstage|exact Hsilent].
Defined.

Lemma stages_return_plain_values_witness :
  fst (WeiboFetcher.fetch_body (WeiboFetcher.Get_raises timed_out) 50) = Raise timed_out
  /\ fst (WeiboFetcher.fetch_hot_topics (WeiboFetcher.Get_raises timed_out) 50) = []
  /\ fst (WeiboSummarizer.summarize timeout_then_empty three_topics) = None
  /\ fst (WeiboEmailNotifier.send_email always_disconnected "digest" three_topics)
     = false.
Proof.
  destruct (stages_return_plain_values (py := ascii_builtins)
              (WeiboFetcher.Get_raises timed_out) 50
              timeout_then_empty three_topics always_disconnected "digest")
    as (Hfetch & _ & Hsend & _ & Hsummarize & _).
  split; [reflexivity|].
  split; [exact (Hfetch timed_out eq_refl)|].
  split; [exact (Hsummarize timed_out eq_refl)|].
  exact (Hsend disconnected eq_refl).
Defined.

Example smooth_run_delivers :
  fst (Main.main smooth_run) = true
  /\ calls (snd (Main.main smooth_run)) = 1
  /\ sessions (snd (Main.main smooth_run)) = 1
  /\ aborted_stage (snd (Main.main smooth_run)) = None.
Proof. repeat split; reflexivity. Qed.

Example unauthorized_run_aborts_at_summarize :
  fst (Main.main unauthorized_run) = false
  /\ calls (snd (Main.main unauthorized_run)) = 1
  /\ sessions (snd (Main.main unauthorized_run)) = 0
  /\ aborted_stage (snd (Main.main unauthorized_run)) = Some Stage_summarize.
Proof. repeat split; reflexivity. Qed.

(** ** More on the retry loop of the DeepSeek summarizer *)

Lemma slept_app (tr tr' : trace) : slept (tr ++ tr') = (slept tr + slept tr')%Z.
Proof.
  induction tr as [|ev tr IH]; [reflexivity|].
  destruct ev; simpl; rewrite IH; lia.
Qed.

Lemma last_cons_nonempty {A : Type} (x d : A) (l : list A) :
  l <> [] -> last (x :: l) d = last l d.
Proof.
  destruct l; [congruence|reflexivity].
Qed.

Section DeepSeekExtras.
Context {py : PyBuiltins}.
Import DeepSeekSummarizer.

Lemma on_response_return (r : option response) (out : option string) :
  fst (on_response r) = Return out ->
  exists summary, out = Some summary /\ nonempty summary = true.
Proof.
  unfold on_response.
  destruct r as [[[[|[t|t|] cs]|]]|]; simpl; try discriminate;
    (destruct t as [text|]; simpl; [|discriminate]);
    (destruct (nonempty text); simpl; [|discriminate]);
    (destruct (nonempty (py_strip text)) eqn:Hs; simpl; [|discriminate]);
    intro H; injection H as <-; eauto.
Qed.

Lemma on_exception_return (self : t) (attempt : nat) (e : exn) (out : option string) :
  fst (on_exception self attempt e) = Return out -> out = None.
Proof.
  unfold on_exception.
  destruct (classify (exn_str e)); simpl; try discriminate.
  - now intros [= <-].
  - destruct (Z.of_nat attempt <? Z.of_nat (max_retries self) - 1)%Z; discriminate.
Qed.

(** The time slept by one iteration, by the kind of its outcome. *)
Lemma iteration_slept (self : t) (attempt : nat) (o : api_outcome)
      (last_error : option exn) :
  slept (snd (iteration self attempt o last_error))
  = match o with
    | Api_returns _ => 0%Z
    | Api_raises e =>
      match classify (exn_str e) with
      | Quota => quota_wait self attempt
      | Server => server_wait self attempt
      | Client => 0%Z
      | Network =>
        if (Z.of_nat attempt <? Z.of_nat (max_retries self) - 1)%Z
        then network_wait self attempt else 0%Z
      end
    end.
Proof.
  destruct o as [e|r]; simpl.
  - unfold on_exception. destruct (classify (exn_str e)); simpl; try lia.
    destruct (Z.of_nat attempt <? Z.of_nat (max_retries self) - 1)%Z; simpl; lia.
  - pose proof (on_response_calls r) as [_ Hs].
    destruct (on_response r) as [f tr]. exact Hs.
Qed.

Lemma iteration_slept_bounds (self : t) (attempt : nat) (o : api_outcome)
      (last_error : option exn) :
  (0 <= retry_delay self)%Z ->
  (0 <= slept (snd (iteration self attempt o last_error))
   <= retry_delay self * (Z.of_nat attempt + 1) * 2)%Z.
Proof.
  intro Hd. rewrite iteration_slept.
  destruct o as [e|r]; [|nia].
  unfold quota_wait, server_wait, network_wait.
  destruct (classify (exn_str e)); try nia.
  destruct (Z.of_nat attempt <? Z.of_nat (max_retries self) - 1)%Z; nia.
Qed.

(** The shape of a run of the loop, one iteration at a time. *)
Lemma attempts_unfold (self : t) (api : nat -> api_outcome) (p : prompt)
      (n attempt : nat) (last_error : option exn) :
  attempts self api p (S n) attempt last_error
  = match fst (fst (iteration self attempt (api attempt) last_error)) with
    | Return r =>
      (r, Completion_call p 2000
            :: snd (iteration self attempt (api attempt) last_error))
    | Continue =>
      (fst (attempts self api p n (S attempt)
              (snd (fst (iteration self attempt (api attempt) last_error)))),
       Completion_call p 2000
         :: snd (iteration self attempt (api attempt) last_error)
         ++ snd (attempts self api p n (S attempt)
                   (snd (fst (iteration self attempt (api attempt) last_error)))))
    end.
Proof.
  simpl attempts.
  destruct (iteration self attempt (api attempt) last_error) as [[f le] tr].
  cbn [fst snd]. destruct f; [reflexivity|].
  now destruct (attempts self api p n (S attempt) le).
Qed.

Lemma iteration_flow (self : t) (attempt : nat) (o : api_outcome)
      (last_error : option exn) :
  fst (fst (iteration self attempt o last_error)) = decides o.
Proof.
  destruct (iteration_spec self attempt o last_error) as (tr & -> & _).
  reflexivity.
Qed.

Lemma attempts_result_nonempty (self : t) (api : nat -> api_outcome) (p : prompt)
      (n : nat) (summary : string) :
  forall attempt last_error,
    fst (attempts self api p n attempt last_error) = Some summary ->
    nonempty summary = true.
Proof.
  induction n as [|n IH]; intros attempt last_error; [discriminate|].
  rewrite attempts_unfold, iteration_flow.
  destruct (decides (api attempt)) as [r|] eqn:Hd; cbn [fst].
  - intros ->. destruct (api attempt) as [e|resp]; simpl in Hd.
    + destruct (classify (exn_str e)); discriminate.
    + destruct (on_response_return resp _ Hd) as (s & [= <-] & Hs). exact Hs.
  - apply IH.
Qed.

Lemma attempts_slept_bounds (self : t) (api : nat -> api_outcome) (p : prompt)
      (n : nat) :
  (0 <= retry_delay self)%Z ->
  forall attempt last_error,
    (0 <= slept (snd (attempts self api p n attempt last_error))
     <= quota_wait_total (retry_delay self) n attempt)%Z.
Proof.
  intros Hd. unfold quota_wait_total.
  induction n as [|n IH]; intros attempt last_error.
  - simpl. lia.
  - rewrite attempts_unfold.
    pose proof (iteration_slept_bounds self attempt (api attempt) last_error Hd)
      as Hit.
    destruct (fst (fst (iteration self attempt (api attempt) last_error))).
    + cbn [snd slept]. nia.
    + cbn [snd slept]. rewrite slept_app.
      specialize (IH (S attempt)
        (snd (fst (iteration self attempt (api attempt) last_error)))).
      nia.
Qed.

(** X1. A summary returned by [DeepSeekSummarizer.summarize] is never the
    empty string. *)
Theorem summarize_result_never_empty (self : t) (api : nat -> api_outcome)
        (content context summary : string) :
  fst (summarize self api content context) = Some summary ->
  nonempty summary = true.
Proof.
  unfold summarize. destruct (rejected content); [discriminate|].
  pose proof (attempts_result_nonempty self api
                (Prompt Reddit_template context content)
                (max_retries self) summary 0 None) as H.
  destruct (attempts self api _ (max_retries self) 0 None) as [r tr].
  exact H.
Qed.

(** X2. With a base delay that is not negative, one call of [summarize]
    sleeps at most [retry_delay * max_retries * (max_retries + 1)] seconds
    in all, whatever the endpoint answers. *)
Theorem summarize_total_sleep_bounded (self : t) (api : nat -> api_outcome)
        (content context : string) :
  (0 <= retry_delay self)%Z ->
  (0 <= slept (snd (summarize self api content context))
   <= retry_delay self * Z.of_nat (max_retries self)
      * (Z.of_nat (max_retries self) + 1))%Z.
Proof.
  intro Hd. unfold summarize.
  destruct (rejected content); [simpl; nia|].
  pose proof (attempts_slept_bounds self api
                (Prompt Reddit_template context content)
                (max_retries self) Hd 0 None) as H.
  unfold quota_wait_total in H.
  destruct (attempts self api _ (max_retries self) 0 None) as [r tr].
  cbn [snd slept] in *. nia.
Qed.

End DeepSeekExtras.

Section DeepSeekRuns.
Context {py : PyBuiltins}.
Import DeepSeekSummarizer.

Lemma iteration_calls (self : t) (attempt : nat) (o : api_outcome)
      (last_error : option exn) :
  calls (snd (iteration self attempt o last_error)) = 0.
Proof.
  destruct (iteration_spec self attempt o last_error) as (tr & -> & Hc).
  exact Hc.
Qed.

Lemma iteration_last_error (self : t) (attempt : nat) (o : api_outcome)
      (last_error : option exn) :
  snd (fst (iteration self attempt o last_error))
  = match o with Api_raises e => Some e | Api_returns _ => last_error end.
Proof.
  destruct (iteration_spec self attempt o last_error) as (tr & -> & _).
  reflexivity.
Qed.

Lemma attempts_trace_nonempty (self : t) (api : nat -> api_outcome) (p : prompt)
      (n attempt : nat) (last_error : option exn) :
  snd (attempts self api p n attempt last_error) <> [].
Proof.
  destruct n as [|n]; [discriminate|].
  rewrite attempts_unfold.
  destruct (fst (fst (iteration self attempt (api attempt) last_error)));
    discriminate.
Qed.

Lemma attempts_all_quota (self : t) (api : nat -> api_outcome) (p : prompt)
      (n : nat) :
  forall attempt last_error,
    (forall j, j < n ->
       exists e, api (attempt + j) = Api_raises e /\ classify (exn_str e) = Quota) ->
    fst (attempts self api p n attempt last_error) = None
    /\ calls (snd (attempts self api p n attempt last_error)) = n
    /\ slept (snd (attempts self api p n attempt last_error))
       = quota_wait_total (retry_delay self) n attempt.
Proof.
  unfold quota_wait_total.
  induction n as [|n IH]; intros attempt last_error Hall.
  - simpl. repeat split; try reflexivity. lia.
  - destruct (Hall 0) as (e & He & Hq); [lia|].
    rewrite Nat.add_0_r in He.
    rewrite attempts_unfold, iteration_flow.
    pose proof (iteration_slept self attempt (api attempt) last_error) as Hs.
    pose proof (iteration_calls self attempt (api attempt) last_error) as Hc.
    rewrite He in *. simpl decides. rewrite Hq in *. cbn [fst snd].
    destruct (IH (S attempt)
                (snd (fst (iteration self attempt (Api_raises e) last_error))))
      as (Hnone & Hcalls & Hslept).
    { intros j Hj. replace (S attempt + j) with (attempt + S j) by lia.
      apply Hall. lia. }
    split; [exact Hnone|]. split.
    + rewrite calls_call, calls_app, Hc, Hcalls. reflexivity.
    + cbn [slept]. rewrite slept_app, Hs, Hslept. unfold quota_wait. nia.
Qed.

Lemma attempts_all_network (self : t) (api : nat -> api_outcome) (p : prompt)
      (n : nat) :
  forall attempt last_error,
    attempt + S n = max_retries self ->
    (forall j, j < S n ->
       exists e, api (attempt + j) = Api_raises e
                 /\ classify (exn_str e) = Network) ->
    fst (attempts self api p (S n) attempt last_error) = None
    /\ calls (snd (attempts self api p (S n) attempt last_error)) = S n
    /\ (2 * slept (snd (attempts self api p (S n) attempt last_error))
        = retry_delay self
          * ((Z.of_nat (max_retries self) - 1) * Z.of_nat (max_retries self)
             - Z.of_nat attempt * (Z.of_nat attempt + 1)))%Z.
Proof.
  induction n as [|n IH]; intros attempt last_error Hmax Hall;
    destruct (Hall 0) as (e & He & Hq); try lia;
    rewrite Nat.add_0_r in He;
    rewrite attempts_unfold, iteration_flow;
    pose proof (iteration_slept self attempt (api attempt) last_error) as Hs;
    pose proof (iteration_calls self attempt (api attempt) last_error) as Hc;
    rewrite He in *; simpl decides; rewrite Hq in *; cbn [fst snd].
  - destruct (Z.ltb_spec (Z.of_nat attempt) (Z.of_nat (max_retries self) - 1));
      [lia|].
    simpl attempts. cbn [fst snd].
    split; [reflexivity|]. split.
    + rewrite calls_call, calls_app, Hc. reflexivity.
    + cbn [slept]. rewrite slept_app, Hs. cbn [slept].
      replace (Z.of_nat (max_retries self)) with (Z.of_nat attempt + 1)%Z by lia.
      lia.
  - destruct (Z.ltb_spec (Z.of_nat attempt) (Z.of_nat (max_retries self) - 1));
      [|lia].
    destruct (IH (S attempt)
                (snd (fst (iteration self attempt (Api_raises e) last_error))))
      as (Hnone & Hcalls & Hslept).
    { lia. }
    { intros j Hj. replace (S attempt + j) with (attempt + S j) by lia.
      apply Hall. lia. }
    split; [exact Hnone|]. split.
    + rewrite calls_call, calls_app, Hc, Hcalls. reflexivity.
    + cbn [slept]. rewrite slept_app, Hs. unfold network_wait.
      rewrite Nat2Z.inj_succ in Hslept. nia.
Qed.

Lemma attempts_all_responses (self : t) (api : nat -> api_outcome) (p : prompt)
      (n : nat) :
  forall attempt last_error,
    (forall j, j < n -> exists r, api (attempt + j) = Api_returns r) ->
    slept (snd (attempts self api p n attempt last_error)) = 0%Z
    /\ (fst (attempts self api p n attempt last_error) = None ->
        last (snd (attempts self api p n attempt last_error)) Http_get
        = Log ERROR (Msg_exhausted (max_retries self)
                       (option_map exn_str last_error))).
Proof.
  induction n as [|n IH]; intros attempt last_error Hall.
  - simpl. auto.
  - destruct (Hall 0) as (r & Hr); [lia|].
    rewrite Nat.add_0_r in Hr.
    rewrite attempts_unfold.
    pose proof (iteration_slept self attempt (api attempt) last_error) as Hs.
    pose proof (iteration_last_error self attempt (api attempt) last_error) as Hle.
    pose proof (iteration_flow self attempt (api attempt) last_error) as Hf.
    rewrite Hr in *. simpl decides in Hf.
    destruct (fst (fst (iteration self attempt (Api_returns r) last_error)))
      as [out|].
    + cbn [fst snd slept]. split; [exact Hs|].
      intros ->. symmetry in Hf.
      destruct (on_response_return r None Hf) as (s & Hs' & _). discriminate.
    + rewrite Hle. cbn [fst snd slept].
      destruct (IH (S attempt) last_error) as (Hslept & Hlast).
      { intros j Hj. replace (S attempt + j) with (attempt + S j) by lia.
        apply Hall. lia. }
      split; [rewrite slept_app, Hs, Hslept; reflexivity|].
      intro Hnone. rewrite last_cons_app by apply attempts_trace_nonempty.
      exact (Hlast Hnone).
Qed.

(** X3. When every attempt raises an error classified as rate limit or
    quota, [summarize] makes all [max_retries] requests, returns None, and
    has slept [retry_delay * max_retries * (max_retries + 1)] seconds: it
    waits after each failure, the last one included. *)
Theorem all_quota_errors_sleep_after_every_attempt (self : t)
        (api : nat -> api_outcome) (content context : string) :
  rejected content = false ->
  (forall j, j < max_retries self ->
     exists e, api j = Api_raises e /\ classify (exn_str e) = Quota) ->
  fst (summarize self api content context) = None
  /\ calls (snd (summarize self api content context)) = max_retries self
  /\ slept (snd (summarize self api content context))
     = (retry_delay self * Z.of_nat (max_retries self)
        * (Z.of_nat (max_retries self) + 1))%Z.
Proof.
  intros Hacc Hall. unfold summarize. rewrite Hacc.
  destruct (attempts_all_quota self api (Prompt Reddit_template context content)
              (max_retries self) 0 None Hall) as (Hnone & Hcalls & Hslept).
  destruct (attempts self api _ (max_retries self) 0 None) as [r tr].
  cbn [fst snd slept] in *. rewrite calls_log.
  unfold quota_wait_total in Hslept.
  split; [exact Hnone|]. split; [exact Hcalls|]. rewrite Hslept. lia.
Qed.

(** X4. When every attempt raises an unclassified error, [summarize] makes
    all [max_retries] requests, returns None, and waits [retry_delay * (i+1)]
    seconds after attempt [i] except after the last: twice the time slept
    is [retry_delay * (max_retries - 1) * max_retries]. *)
Theorem all_network_errors_skip_the_last_wait (self : t)
        (api : nat -> api_outcome) (content context : string) :
  rejected content = false ->
  0 < max_retries self ->
  (forall j, j < max_retries self ->
     exists e, api j = Api_raises e /\ classify (exn_str e) = Network) ->
  fst (summarize self api content context) = None
  /\ calls (snd (summarize self api content context)) = max_retries self
  /\ (2 * slept (snd (summarize self api content context))
      = retry_delay self * (Z.of_nat (max_retries self) - 1)
        * Z.of_nat (max_retries self))%Z.
Proof.
  intros Hacc Hpos Hall. unfold summarize. rewrite Hacc.
  destruct (max_retries self) as [|n] eqn:Hn; [lia|].
  destruct (attempts_all_network self api (Prompt Reddit_template context content)
              n 0 None) as (Hnone & Hcalls & Hslept).
  { now rewrite Hn. }
  { rewrite <- Hn in Hall. intros j Hj. apply Hall. lia. }
  rewrite Hn in Hslept.
  destruct (attempts self api _ (S n) 0 None) as [r tr].
  cbn [fst snd slept] in *. rewrite calls_log.
  split; [exact Hnone|]. split; [exact Hcalls|]. rewrite Hslept. simpl Z.of_nat at 3.
  lia.
Qed.

(** X5. When no attempt raises, [summarize] never sleeps; if it then gives
    up, its closing error record carries no error at all, however many
    empty answers were logged on the way. *)
Theorem empty_answers_never_sleep (self : t) (api : nat -> api_outcome)
        (content context : string) :
  rejected content = false ->
  (forall j, j < max_retries self -> exists r, api j = Api_returns r) ->
  slept (snd (summarize self api content context)) = 0%Z
  /\ (fst (summarize self api content context) = None ->
      last (snd (summarize self api content context)) Http_get
      = Log ERROR (Msg_exhausted (max_retries self) None)).
Proof.
  intros Hacc Hall. unfold summarize. rewrite Hacc.
  destruct (attempts_all_responses self api
              (Prompt Reddit_template context content)
              (max_retries self) 0 None Hall) as (Hslept & Hlast).
  pose proof (attempts_trace_nonempty self api
                (Prompt Reddit_template context content)
                (max_retries self) 0 None) as Hne.
  destruct (attempts self api _ (max_retries self) 0 None) as [r tr].
  cbn [fst snd slept] in *. split; [exact Hslept|].
  intro Hnone. rewrite last_cons_nonempty by exact Hne. exact (Hlast Hnone).
Qed.

(** X6. The branches of the classification are tried in order: an error
    whose message names a rate limit, a quota or a server failure (429,
    500, 503) is retried even when it also names 400, 401, 403 or 404; the
    loop gives up at once only when none of those marks is present. *)
Theorem retry_marks_take_precedence (e : exn) :
  ((contains "429" (exn_str e)
    || contains "rate limit" (py_lower (exn_str e))
    || contains "quota" (py_lower (exn_str e))
    || contains "500" (exn_str e)
    || contains "503" (exn_str e)
    || contains "service unavailable" (py_lower (exn_str e))) = true ->
   decides (Api_raises e) = Continue)
  /\ (decides (Api_raises e) = Return None ->
      contains "429" (exn_str e) = false
      /\ contains "quota" (py_lower (exn_str e)) = false
      /\ contains "500" (exn_str e) = false
      /\ contains "503" (exn_str e) = false
      /\ (contains "400" (exn_str e) || contains "401" (exn_str e)
          || contains "403" (exn_str e) || contains "404" (exn_str e)) = true).
Proof.
  unfold decides, classify.
  destruct (contains "429" (exn_str e));
    destruct (contains "rate limit" (py_lower (exn_str e)));
    destruct (contains "quota" (py_lower (exn_str e)));
    destruct (contains "500" (exn_str e));
    destruct (contains "503" (exn_str e));
    destruct (contains "service unavailable" (py_lower (exn_str e)));
    cbn; (split; [try reflexivity; try discriminate|try discriminate]);
    destruct (contains "400" (exn_str e) || contains "401" (exn_str e)
              || contains "403" (exn_str e) || contains "404" (exn_str e));
    cbn; intros; try discriminate; auto.
Qed.

End DeepSeekRuns.

(** ** More on the Weibo summarizer *)

Section WeiboSummarizerExtras.
Context {py : PyBuiltins}.
Import WeiboSummarizer.



(** X8. [WeiboSummarizer.summarize] returns a text exactly when the call
    returns a response whose first choice is a message with content, and
    the text is that content stripped; it may then be the empty string.
    Every other outcome gives None. *)
Theorem weibo_summary_is_stripped_first_choice (api : nat -> api_outcome)
        (topics : list topic) (summary : string) :
  fst (summarize api topics) = Some summary
  <-> exists text rest,
      api 0 = Api_returns
                (Some (Response (Some (Choice_message (Some text) :: rest))))
      /\ summary = py_strip text.
Proof.
  unfold summarize, summarize_body, extract.
  destruct (api 0) as [e|[[[[|[[text|]|text|] rest]|]]|]]; cbn;
    (split; [try discriminate|intros (text' & rest' & H & ->); try discriminate]).
  - intros [= <-]. eauto.
  - now injection H as <- _.
Qed.

End WeiboSummarizerExtras.

(** ** More on the fetcher *)

Section FetcherExtras.
Context {py : PyBuiltins}.
Import WeiboFetcher.

Lemma code_200 (data : envelope) :
  code_not_200 data = false -> code data = Some (VInt 200).
Proof.
  unfold code_not_200.
  destruct (code data) as [[s|z]|]; try discriminate.
  destruct z as [|p|p]; try discriminate.
  do 8 (destruct p as [p|p|]; try discriminate).
  reflexivity.
Qed.

(** X9. [fetch_hot_topics] sends exactly one request whatever happens: no
    outcome of the request, refusal or malformed envelope makes it ask
    again. *)
Theorem fetch_sends_one_request (http : http_outcome) (limit : Z) :
  requests (snd (fetch_hot_topics http limit)) = 1.
Proof.
  unfold fetch_hot_topics, fetch_body.
  destruct http as [e|data].
  - cbn. destruct (exn_kind e); reflexivity.
  - destruct (code_not_200 data); [reflexivity|].
    destruct (result data) as [| |lst]; reflexivity.
Qed.

(** X10. [fetch_hot_topics] returns topics only from an envelope with
    status 200 whose result holds a list; the topics are then that list cut
    by the slice, and nothing is written to the error log. *)
Theorem topics_come_from_accepted_envelope (http : http_outcome) (limit : Z)
        (t : topic) (rest : list topic) :
  fst (fetch_hot_topics http limit) = t :: rest ->
  exists data lst,
    http = Get_json data
    /\ code data = Some (VInt 200)
    /\ result data = Result_object (Some lst)
    /\ t :: rest = slice_to lst limit
    /\ errors (snd (fetch_hot_topics http limit)) = [].
Proof.
  unfold fetch_hot_topics, fetch_body.
  destruct http as [e|data].
  - cbn. destruct (exn_kind e); discriminate.
  - destruct (code_not_200 data) eqn:Hcode; [discriminate|].
    destruct (result data) as [| |[lst|]] eqn:Hres; cbn;
      try discriminate;
      try (unfold slice_to; destruct (limit <? 0)%Z; cbn;
           rewrite ?firstn_nil; discriminate).
    intro H. exists data, lst.
    repeat split; auto using code_200.
Qed.

(** X11. Whatever the sign of [limit], the topics returned for an accepted
    envelope are a prefix of the provider's list.  A limit of 0 gives the
    empty list, and a negative limit does not bound the result but drops
    that many entries from the end. *)
Theorem fetched_topics_are_a_prefix (data : envelope) (lst : list topic)
        (limit : Z) :
  code data = Some (VInt 200) ->
  result data = Result_object (Some lst) ->
  (exists dropped, lst = fst (fetch_hot_topics (Get_json data) limit) ++ dropped)
  /\ (limit = 0%Z -> fst (fetch_hot_topics (Get_json data) limit) = [])
  /\ ((limit < 0)%Z ->
      List.length (fst (fetch_hot_topics (Get_json data) limit))
      = List.length lst - Z.to_nat (- limit)).
Proof.
  intros Hcode Hres.
  rewrite (fetch_accepted data lst limit Hcode Hres). cbn [fst].
  unfold slice_to. split; [|split].
  - destruct (limit <? 0)%Z;
      eexists; symmetry; apply firstn_skipn.
  - intros ->. reflexivity.
  - intro Hneg. destruct (Z.ltb_spec limit 0); [|lia].
    rewrite length_firstn. lia.
Qed.

Lemma lines_length (topics : list topic) :
  forall i, List.length (lines i topics) = List.length topics.
Proof.
  induction topics as [|t rest IH]; intro i; simpl; [reflexivity|].
  now rewrite IH.
Qed.

Lemma lines_ranks (topics : list topic) :
  forall i, map line_rank (lines i topics) = seq i (List.length topics).
Proof.
  induction topics as [|t rest IH]; intro i; simpl; [reflexivity|].
  now rewrite IH.
Qed.

Lemma lines_words (topics : list topic) :
  forall i, map line_word (lines i topics)
            = map (fun t => get (hotword t) "") topics.
Proof.
  induction topics as [|t rest IH]; intro i; simpl; [reflexivity|].
  now rewrite IH.
Qed.

Lemma lines_firstn (n : nat) (topics : list topic) :
  forall i, lines i (firstn n topics) = firstn n (lines i topics).
Proof.
  revert topics. induction n as [|n IH]; intros topics i; [reflexivity|].
  destruct topics as [|t rest]; [reflexivity|].
  simpl. now rewrite IH.
Qed.

Lemma lines_tags (topics : list topic) :
  forall i, map line_tag (lines i topics)
            = map (fun t => if nonempty (get (hottag t) "")
                            then ("[" ++ get (hottag t) "" ++ "]")%string
                            else "")
                  topics.
Proof.
  induction topics as [|t rest IH]; intro i; simpl; [reflexivity|].
  now rewrite IH.
Qed.

(** X12. [format_topics] gives the placeholder exactly for an empty list;
    for any other list it writes one line per topic, without the cap of
    30 of the mail, numbered from 1 in the order of the list and showing
    each topic's word (empty when the key is missing) and its tag in
    brackets (nothing for a missing or empty tag). *)
Theorem format_topics_lists_every_topic (topics : list topic) :
  (format_topics topics = No_data <-> topics = [])
  /\ (topics <> [] ->
      exists ls,
        format_topics topics = Lines ls
        /\ List.length ls = List.length topics
        /\ map line_rank ls = seq 1 (List.length topics)
        /\ map line_word ls = map (fun t => get (hotword t) "") topics
        /\ map line_tag ls
           = map (fun t => if nonempty (get (hottag t) "")
                           then ("[" ++ get (hottag t) "" ++ "]")%string
                           else "")
                 topics).
Proof.
  unfold format_topics. split.
  - destruct topics as [|t rest]; split; try reflexivity; discriminate.
  - destruct topics as [|t rest]; [congruence|]. intros _.
    exists (lines 1 (t :: rest)).
    split; [reflexivity|].
    split; [exact (lines_length (t :: rest) 1)|].
    split; [exact (lines_ranks (t :: rest) 1)|].
    split; [exact (lines_words (t :: rest) 1)|exact (lines_tags (t :: rest) 1)].
Qed.

End FetcherExtras.

(** ** More on the notifier *)

Section NotifierExtras.
Context {py : PyBuiltins}.
Import WeiboEmailNotifier.

Lemma topics_html_matches_lines (topics : list topic) :
  forall i,
    map row_rank (topics_html i topics) = map WeiboFetcher.line_rank (WeiboFetcher.lines i topics)
    /\ map row_word (topics_html i topics)
       = map WeiboFetcher.line_word (WeiboFetcher.lines i topics)
    /\ map row_heat (topics_html i topics)
       = map WeiboFetcher.line_heat (WeiboFetcher.lines i topics).
Proof.
  induction topics as [|t rest IH]; intro i; simpl; [auto|].
  destruct (IH (S i)) as (-> & -> & ->). auto.
Qed.

(** X13. The mail and the text listing agree: the rows of the rendered
    message show the same rank, word and heat as the first 30 lines of
    [format_topics] for the same topics. *)
Theorem mail_rows_agree_with_listing (summary : string) (topics : list topic)
        (ls : list WeiboFetcher.line) :
  WeiboFetcher.format_topics topics = WeiboFetcher.Lines ls ->
  map row_rank (html_rows (_generate_html summary topics))
  = firstn 30 (map WeiboFetcher.line_rank ls)
  /\ map row_word (html_rows (_generate_html summary topics))
     = firstn 30 (map WeiboFetcher.line_word ls)
  /\ map row_heat (html_rows (_generate_html summary topics))
     = firstn 30 (map WeiboFetcher.line_heat ls).
Proof.
  unfold WeiboFetcher.format_topics.
  destruct topics as [|t rest]; [discriminate|].
  intros [= <-]. unfold _generate_html. cbn [html_rows].
  rewrite slice_to_nonneg by lia. change (Z.to_nat 30) with 30.
  destruct (topics_html_matches_lines (firstn 30 (t :: rest)) 1)
    as (-> & -> & ->).
  rewrite lines_firstn.
  now rewrite !firstn_map.
Qed.

End NotifierExtras.

Section DeliveryExtras.
Context {py : PyBuiltins}.
Import WeiboEmailNotifier.

Lemma deliver_orderly (smtp : nat -> session_outcome) (body : html) (n : nat) :
  forall attempt, orderly body (snd (deliver smtp body n attempt)).
Proof.
  unfold orderly.
  induction n as [|n IH]; intro attempt.
  - simpl. repeat split; constructor.
  - cbn [deliver]. specialize (IH (S attempt)).
    destruct (deliver smtp body n (S attempt)) as [r tr'].
    cbn [snd] in IH. destruct IH as (H1 & H2 & H3 & H4 & H5 & H6).
    unfold calls, requests, logins, closes, sent_bodies, errors in *.
    destruct (smtp attempt) as [|e|e|e];
      unfold session, bind, emit, throw, ret; cbn;
      try (destruct (exn_kind e); cbn);
      try (destruct (Nat.eqb attempt 2); cbn);
      repeat split; auto; try (constructor; auto); try constructor.
Qed.

Lemma deliver_true (smtp : nat -> session_outcome) (body : html) (n : nat) :
  forall attempt,
    fst (deliver smtp body n attempt) = Ok true ->
    exists k,
      k < n
      /\ smtp (attempt + k) = Session_sent
      /\ forall j, j < k -> retryable (smtp (attempt + j)) = true.
Proof.
  induction n as [|n IH]; intros attempt Htrue; [discriminate|].
  destruct (deliver_ends smtp body n attempt) as (tr & _ & Hend).
  destruct (raised (smtp attempt)) as [e|] eqn:Hr.
  - destruct (is_smtp e) eqn:He.
    + destruct (Nat.eq_dec attempt 2) as [H2|H2].
      * rewrite Hend in Htrue by auto. discriminate.
      * destruct (deliver_retry smtp body n attempt) as (pre & Heq & _); auto.
        { unfold retryable. now rewrite Hr. }
        rewrite Heq in Htrue. cbn [fst] in Htrue.
        destruct (IH (S attempt) Htrue) as (k & Hk & Hsent & Hbefore).
        exists (S k). split; [lia|]. split.
        { now replace (attempt + S k) with (S attempt + k) by lia. }
        intros j Hj. destruct j as [|j].
        { rewrite Nat.add_0_r. unfold retryable. now rewrite Hr. }
        replace (attempt + S j) with (S attempt + j) by lia.
        apply Hbefore. lia.
    + rewrite Hend in Htrue by auto. discriminate.
  - exists 0. split; [lia|]. rewrite Nat.add_0_r. split.
    + destruct (smtp attempt); try discriminate. reflexivity.
    + intros j Hj. lia.
Qed.

(** X14. [send_email] returns True exactly when one of the first three
    sessions delivers and every session before it failed with an SMTP
    exception. *)
Theorem delivered_iff_a_session_sends (smtp : nat -> session_outcome)
        (summary : string) (topics : list topic) :
  fst (send_email smtp summary topics) = true
  <-> exists k,
      k < 3
      /\ smtp k = Session_sent
      /\ forall j, j < k -> retryable (smtp j) = true.
Proof.
  unfold send_email, try_except.
  set (body := _generate_html summary topics).
  split.
  - intro Htrue.
    apply (deliver_true smtp body 3 0).
    destruct (deliver smtp body 3 0) as [[b|e] tr]; cbn [fst] in *;
      [now subst b|discriminate].
  - intros (k & Hk & Hsent & Hbefore).
    destruct (deliver_skip smtp body k (3 - k) 0) as (pre & Heq & _);
      [lia|exact Hbefore|].
    replace (k + (3 - k)) with 3 in Heq by lia.
    destruct (3 - k) as [|m] eqn:Em; [lia|].
    destruct (deliver_ends smtp body m (0 + k)) as (tr & _ & Hend).
    simpl (0 + k) in *. rewrite Hsent in Hend. cbn [raised] in Hend.
    rewrite Hend in Heq. rewrite Heq. reflexivity.
Qed.

Lemma send_email_trace (smtp : nat -> session_outcome) (summary : string)
      (topics : list topic) :
  exists tail,
    snd (send_email smtp summary topics)
    = snd (deliver smtp (_generate_html summary topics) 3 0) ++ tail
    /\ (tail = [] \/ exists m, tail = [Log ERROR (Msg_send_failed m)]).
Proof.
  unfold send_email, try_except.
  destruct (deliver smtp _ 3 0) as [[b|e] tr]; cbn [snd].
  - exists []. rewrite app_nil_r. auto.
  - exists [Log ERROR (Msg_send_failed (exn_str e))]. eauto.
Qed.

(** X15. [send_email] never waits: no sleep separates its attempts, and it
    sends nothing to the ranking provider or the completion endpoint. *)
Theorem delivery_never_sleeps (smtp : nat -> session_outcome)
        (summary : string) (topics : list topic) :
  slept (snd (send_email smtp summary topics)) = 0%Z
  /\ calls (snd (send_email smtp summary topics)) = 0
  /\ requests (snd (send_email smtp summary topics)) = 0.
Proof.
  destruct (send_email_trace smtp summary topics) as (tail & -> & Htail).
  destruct (deliver_orderly smtp (_generate_html summary topics) 3 0)
    as (Hs & Hc & Hr & _).
  rewrite slept_app, calls_app, Hs, Hc.
  unfold requests in *. rewrite filter_app, length_app, Hr.
  destruct Htail as [-> | (m & ->)]; repeat split; reflexivity.
Qed.

(** X16. Every session of [send_email] that got as far as logging in is
    closed, whether it delivered or failed; a session that could not be
    opened has nothing to close. *)
Theorem opened_sessions_are_closed (smtp : nat -> session_outcome)
        (summary : string) (topics : list topic) :
  logins (snd (send_email smtp summary topics))
  = closes (snd (send_email smtp summary topics))
  /\ closes (snd (send_email smtp summary topics))
     <= sessions (snd (send_email smtp summary topics)).
Proof.
  destruct (send_email_trace smtp summary topics) as (tail & Heq & Htail).
  destruct (deliver_orderly smtp (_generate_html summary topics) 3 0)
    as (_ & _ & _ & Hl & _).
  assert (Hle : forall n attempt,
             closes (snd (deliver smtp (_generate_html summary topics) n attempt))
             <= sessions (snd (deliver smtp (_generate_html summary topics)
                                 n attempt))).
  { induction n as [|n IH]; intro attempt; [simpl; auto|].
    cbn [deliver]. specialize (IH (S attempt)).
    destruct (deliver smtp _ n (S attempt)) as [r tr'].
    cbn [snd] in IH. unfold closes, sessions in *.
    destruct (smtp attempt) as [|e|e|e];
      unfold session, bind, emit, throw, ret; cbn;
      try (destruct (exn_kind e); cbn);
      try (destruct (Nat.eqb attempt 2); cbn);
      lia. }
  specialize (Hle 3 0). rewrite Heq.
  set (D := snd (deliver smtp (_generate_html summary topics) 3 0)) in *.
  clearbody D. unfold logins, closes, sessions in *.
  rewrite !filter_app, !length_app, Hl.
  destruct Htail as [-> | (m & ->)]; cbn; lia.
Qed.

(** X17. Every message handed to the mail server by [send_email] is the
    rendering of the given summary and topics, so it carries at most 30
    rows; at most three are handed over. *)
Theorem only_the_rendered_message_is_sent (smtp : nat -> session_outcome)
        (summary : string) (topics : list topic) :
  Forall (fun body => body = _generate_html summary topics
                      /\ List.length (html_rows body) <= 30)
         (sent_bodies (snd (send_email smtp summary topics)))
  /\ List.length (sent_bodies (snd (send_email smtp summary topics))) <= 3.
Proof.
  destruct (send_email_trace smtp summary topics) as (tail & Heq & Htail).
  destruct (deliver_orderly smtp (_generate_html summary topics) 3 0)
    as (_ & _ & _ & _ & Hb & _).
  assert (Hrows : List.length (html_rows (_generate_html summary topics)) <= 30).
  { unfold _generate_html. cbn [html_rows].
    rewrite topics_html_length, slice_to_nonneg by lia.
    rewrite length_firstn. lia. }
  assert (Hle : forall n attempt,
             List.length
               (sent_bodies (snd (deliver smtp (_generate_html summary topics)
                                    n attempt))) <= n).
  { induction n as [|n IH]; intro attempt; [simpl; auto|].
    cbn [deliver]. specialize (IH (S attempt)).
    destruct (deliver smtp _ n (S attempt)) as [r tr'].
    cbn [snd] in IH. unfold sent_bodies in *.
    destruct (smtp attempt) as [|e|e|e];
      unfold session, bind, emit, throw, ret; cbn;
      try (destruct (exn_kind e); cbn);
      try (destruct (Nat.eqb attempt 2); cbn);
      lia. }
  assert (Hsame : sent_bodies (snd (send_email smtp summary topics))
                  = sent_bodies (snd (deliver smtp (_generate_html summary topics)
                                        3 0))).
  { rewrite Heq.
    set (D := snd (deliver smtp (_generate_html summary topics) 3 0)).
    clearbody D. unfold sent_bodies. rewrite flat_map_app.
    destruct Htail as [-> | (m & ->)]; cbn; now rewrite app_nil_r. }
  rewrite Hsame. split; [|apply Hle].
  eapply Forall_impl; [|exact Hb].
  intros body <-. auto.
Qed.

Lemma topics_html_words (topics : list topic) :
  forall i,
    map row_word (topics_html i topics) = map (fun t => get (hotword t) "") topics
    /\ Forall (fun r => row_url r
                        = ("https://s.weibo.com/weibo?q=" ++ row_word r)%string)
              (topics_html i topics)
    /\ Forall (fun r => row_tag r = None
                        \/ exists tag, row_tag r = Some (tag_color tag, tag)
                                       /\ nonempty tag = true)
              (topics_html i topics).
Proof.
  induction topics as [|t rest IH]; intro i; simpl.
  - repeat split; constructor.
  - destruct (IH (S i)) as (-> & Hurl & Htag).
    split; [reflexivity|]. split; constructor; auto.
    cbn [row_tag]. destruct (nonempty (get (hottag t) "")) eqn:Hn; eauto.
Qed.

Lemma topics_html_tags (topics : list topic) :
  forall i,
    Forall2 (fun t r =>
               row_tag r
               = if nonempty (get (hottag t) "")
                 then Some (tag_color (get (hottag t) ""), get (hottag t) "")
                 else None)
            topics (topics_html i topics).
Proof.
  induction topics as [|t rest IH]; intro i; simpl; constructor; auto.
Qed.

(** X18. The rows of the mail follow the order of the batch: their words
    are the words of the first 30 topics in sequence (empty for a topic
    without the key), each row links to the search page of its own word, and
    the tag of a row is the tag of its own topic with the colour of that
    tag, shown exactly when the topic has a non-empty one. *)
Theorem rows_follow_the_batch (summary : string) (topics : list topic) :
  map row_word (html_rows (_generate_html summary topics))
  = map (fun t => get (hotword t) "") (firstn 30 topics)
  /\ Forall (fun r => row_url r
                      = ("https://s.weibo.com/weibo?q=" ++ row_word r)%string)
            (html_rows (_generate_html summary topics))
  /\ Forall2 (fun t r =>
                row_tag r
                = if nonempty (get (hottag t) "")
                  then Some (tag_color (get (hottag t) ""), get (hottag t) "")
                  else None)
             (firstn 30 topics) (html_rows (_generate_html summary topics))
  /\ Forall (fun r => row_tag r = None
                      \/ exists tag, row_tag r = Some (tag_color tag, tag)
                                     /\ nonempty tag = true)
            (html_rows (_generate_html summary topics)).
Proof.
  unfold _generate_html. cbn [html_rows].
  rewrite slice_to_nonneg by lia. change (Z.to_nat 30) with 30.
  destruct (topics_html_words (firstn 30 topics) 1) as (Hwords & Hurl & Htag).
  split; [exact Hwords|]. split; [exact Hurl|].
  split; [apply topics_html_tags|exact Htag].
Qed.

End DeliveryExtras.

(** ** More on the orchestrator *)

Lemma requests_app (tr tr' : trace) :
  requests (tr ++ tr') = requests tr + requests tr'.
Proof.
  unfold requests. now rewrite filter_app, length_app.
Qed.

Lemma errors_app (tr tr' : trace) : errors (tr ++ tr') = errors tr ++ errors tr'.
Proof.
  unfold errors. apply flat_map_app.
Qed.

Lemma aborted_stage_last (tr : trace) (m : message) :
  aborted_stage (tr ++ [Log ERROR m])
  = match m with
    | Msg_no_topics => Some Stage_fetch
    | Msg_summary_failed => Some Stage_summarize
    | Msg_mail_failed => Some Stage_deliver
    | _ => None
    end.
Proof.
  unfold aborted_stage. rewrite errors_app.
  change (errors [Log ERROR m]) with [m]. now rewrite last_last.
Qed.

(** Brings a concatenation of traces to its right-nested form. *)
Ltac flatten_trace :=
  repeat (progress (rewrite <- ?app_assoc; cbn [app]; rewrite ?app_nil_r)).

Section PipelineExtras.
Context {py : PyBuiltins}.
Import Main.

(** The effects of one call of the fetcher. *)
Lemma fetch_trace_counts (http : WeiboFetcher.http_outcome) (limit : Z) :
  requests (snd (WeiboFetcher.fetch_hot_topics http limit)) = 1
  /\ slept (snd (WeiboFetcher.fetch_hot_topics http limit)) = 0%Z
  /\ (fst (WeiboFetcher.fetch_hot_topics http limit) <> [] ->
      errors (snd (WeiboFetcher.fetch_hot_topics http limit)) = []).
Proof.
  unfold WeiboFetcher.fetch_hot_topics, WeiboFetcher.fetch_body.
  destruct http as [e|data].
  - cbn. destruct (exn_kind e); cbn; repeat split; congruence.
  - destruct (WeiboFetcher.code_not_200 data); [cbn; repeat split; congruence|].
    destruct (WeiboFetcher.result data) as [| |lst]; cbn; repeat split; congruence.
Qed.

(** The effects of one call of the Weibo summarizer. *)
Lemma weibo_summarize_trace (api : nat -> api_outcome) (topics : list topic) :
  sessions (snd (WeiboSummarizer.summarize api topics)) = 0
  /\ requests (snd (WeiboSummarizer.summarize api topics)) = 0
  /\ slept (snd (WeiboSummarizer.summarize api topics)) = 0%Z
  /\ forallb (fun ev => negb (notifier_event ev))
       (snd (WeiboSummarizer.summarize api topics)) = true
  /\ (fst (WeiboSummarizer.summarize api topics) <> None ->
      errors (snd (WeiboSummarizer.summarize api topics)) = []).
Proof.
  unfold WeiboSummarizer.summarize, WeiboSummarizer.summarize_body,
    WeiboSummarizer.extract.
  destruct (api 0) as [e|[[[[|[[text|]|text|] rest]|]]|]]; cbn;
    repeat split; congruence.
Qed.

(** The effects of one call of the notifier. *)
Lemma send_email_counts (smtp : nat -> session_outcome) (summary : string)
      (topics : list topic) :
  calls (snd (WeiboEmailNotifier.send_email smtp summary topics)) = 0
  /\ requests (snd (WeiboEmailNotifier.send_email smtp summary topics)) = 0
  /\ slept (snd (WeiboEmailNotifier.send_email smtp summary topics)) = 0%Z
  /\ sessions (snd (WeiboEmailNotifier.send_email smtp summary topics)) <= 3
  /\ (fst (WeiboEmailNotifier.send_email smtp summary topics) = true ->
      errors (snd (WeiboEmailNotifier.send_email smtp summary topics)) = []).
Proof.
  pose proof (deliver_sessions_le smtp
                (WeiboEmailNotifier._generate_html summary topics) 3 0) as Hle.
  destruct (deliver_orderly smtp
              (WeiboEmailNotifier._generate_html summary topics) 3 0)
    as (Hs & Hc & Hr & _ & _ & He).
  unfold WeiboEmailNotifier.send_email, try_except.
  destruct (WeiboEmailNotifier.deliver smtp _ 3 0) as [[b|e] tr];
    cbn [fst snd] in *.
  - repeat split; auto.
  - rewrite calls_app, requests_app, slept_app, sessions_app, Hs, Hc, Hr.
    repeat split; try reflexivity; [|discriminate].
    change (sessions [Log ERROR (Msg_send_failed (exn_str e))]) with 0. lia.
Qed.

(** A run that fails one of the configuration checks stops after the
    banner and one error record. *)
Lemma main_unconfigured (w : world) :
  configured (env w) = false ->
  exists m, main w = (false, [Log INFO Msg_banner; Log ERROR m]).
Proof.
  unfold configured, main, main_body. intro Hconf.
  destruct (py_int (get (SMTP_PORT (env w)) "465")) as [port|];
    [|eexists; reflexivity].
  unfold bind at 1. cbn [emit]. unfold bind at 1. cbn [ret].
  destruct (truthy (TIANAPI_KEY (env w))); [|eexists; reflexivity].
  destruct (truthy (DEEPSEEK_API_KEY (env w))); [|eexists; reflexivity].
  cbn [andb negb] in *. rewrite Hconf. eexists; reflexivity.
Qed.

(** A configured run, stage by stage. *)
Lemma main_configured_run (w : world) :
  configured (env w) = true ->
  main w
  = let '(topics, fetched) := WeiboFetcher.fetch_hot_topics (http w) 50 in
    let opening :=
      [Log INFO Msg_banner; Log INFO (Msg_step 1); Log INFO Msg_fetcher_init] in
    match topics with
    | [] => (false, opening ++ fetched ++ [Log ERROR Msg_no_topics])
    | _ :: _ =>
      let raw :=
        [Log INFO (Msg_got_topics (List.length topics));
         File_write "weibo_topics_raw.txt"] in
      match raw_write w with
      | Some e =>
        (false,
         opening ++ fetched ++ raw ++ [Log ERROR (Msg_program_failed (exn_str e))])
      | None =>
        let '(summary, summarized) :=
          WeiboSummarizer.summarize (completion w) topics in
        let second :=
          [Log INFO Msg_raw_saved; Log INFO (Msg_step 2);
           Log INFO Msg_summarizer_init] in
        match summary with
        | Some (String c s) =>
          let saved :=
            [Log INFO (Msg_summary_length (String.length (String c s)));
             File_write "weibo_summary.md"] in
          match summary_write w with
          | Some e =>
            (false,
             opening ++ fetched ++ raw ++ second ++ summarized ++ saved
               ++ [Log ERROR (Msg_program_failed (exn_str e))])
          | None =>
            let '(email_sent, mailed) :=
              WeiboEmailNotifier.send_email (smtp w) (String c s) topics in
            let third :=
              [Log INFO Msg_summary_saved; Log INFO (Msg_step 3);
               Log INFO Msg_notifier_init] in
            (email_sent,
             opening ++ fetched ++ raw ++ second ++ summarized ++ saved
               ++ third ++ mailed
               ++ [if email_sent then Log INFO Msg_mail_ok
                   else Log ERROR Msg_mail_failed])
          end
        | _ =>
          (false,
           opening ++ fetched ++ raw ++ second ++ summarized
             ++ [Log ERROR Msg_summary_failed])
        end
      end
    end.
Proof.
  unfold configured, main, main_body. intro Hconf.
  destruct (py_int (get (SMTP_PORT (env w)) "465")) as [port|]; [|discriminate].
  apply andb_true_iff in Hconf as [Hconf Hmail].
  apply andb_true_iff in Hconf as [Hkey Hdeep].
  unfold bind at 1. cbn [emit]. unfold bind at 1. cbn [ret].
  rewrite Hkey, Hdeep, Hmail. cbn [negb].
  unfold WeiboSummarizer.init. rewrite Hdeep. cbn [orb].
  destruct (WeiboFetcher.fetch_hot_topics (http w) 50) as [topics fetched].
  destruct topics as [|t rest].
  { unfold WeiboFetcher.init, bind, emit, call, ret, try_except. cbn.
    rewrite ?app_nil_r. reflexivity. }
  destruct (raw_write w) as [e|].
  { unfold WeiboFetcher.init, write_file, bind, emit, call, ret, throw,
      try_except. cbn. rewrite <- ?app_assoc. reflexivity. }
  unfold WeiboFetcher.init, WeiboEmailNotifier.init, write_file, bind, emit,
    call, ret, throw, try_except.
  cbn -[WeiboSummarizer.summarize WeiboEmailNotifier.send_email].
  destruct (WeiboSummarizer.summarize (completion w) (t :: rest))
    as [[[|c s]|] summarized];
    cbn -[WeiboEmailNotifier.send_email];
    try (flatten_trace; reflexivity).
  destruct (summary_write w) as [e|];
    cbn -[WeiboEmailNotifier.send_email];
    [flatten_trace; reflexivity|].
  destruct (WeiboEmailNotifier.send_email (smtp w) (String c s) (t :: rest))
    as [[|] mailed];
    cbn; flatten_trace; reflexivity.
Qed.

End PipelineExtras.

(** Splits the counters of a concatenated trace and computes the parts
    that are known. *)
Ltac count_effects :=
  cbv zeta; cbn [fst snd];
  unfold calls, sessions, requests in *;
  rewrite ?slept_app, ?filter_app, ?length_app;
  cbn; repeat split; lia.

Section PipelineVerdicts.
Context {py : PyBuiltins}.
Import Main.

(** X19. A run that fails a configuration check (an unreadable port, a
    missing or empty key, an incomplete mail configuration) returns False
    after the banner and one error record: no request is sent to any
    service. *)
Theorem unconfigured_run_touches_nothing (w : world) :
  configured (env w) = false ->
  fst (main w) = false
  /\ requests (snd (main w)) = 0
  /\ calls (snd (main w)) = 0
  /\ sessions (snd (main w)) = 0
  /\ List.length (snd (main w)) = 2.
Proof.
  intro Hconf. destruct (main_unconfigured w Hconf) as (m & ->).
  repeat split; reflexivity.
Qed.

(** X20. In a configured run with topics, when the summarizer returns None
    or an empty text, [main] returns False blaming the summarize stage: one
    completion request was sent, no SMTP session is opened and the notifier
    is not even constructed. *)
Theorem failed_summary_stops_before_mail (w : world) (t : topic)
        (rest : list topic) :
  configured (env w) = true ->
  fst (WeiboFetcher.fetch_hot_topics (http w) 50) = t :: rest ->
  raw_write w = None ->
  fst (WeiboSummarizer.summarize (completion w) (t :: rest)) = None
  \/ fst (WeiboSummarizer.summarize (completion w) (t :: rest)) = Some EmptyString ->
  fst (main w) = false
  /\ aborted_stage (snd (main w)) = Some Stage_summarize
  /\ calls (snd (main w)) = 1
  /\ sessions (snd (main w)) = 0
  /\ forallb (fun ev => negb (notifier_event ev)) (snd (main w)) = true.
Proof.
  intros Hconf Hfetch Hraw Hsummary.
  pose proof (fetch_trace_quiet (http w) 50) as (Hfc & Hfs & Hfq).
  pose proof (weibo_summarize_trace (completion w) (t :: rest))
    as (Hss & _ & _ & Hsq & _).
  pose proof (weibo_summarize_one_call (completion w) (t :: rest)) as Hsc.
  rewrite (main_configured_run w Hconf).
  destruct (WeiboFetcher.fetch_hot_topics (http w) 50) as [topics fetched].
  cbn [fst snd] in *. subst topics. rewrite Hraw.
  destruct (WeiboSummarizer.summarize (completion w) (t :: rest))
    as [summary summarized].
  cbn [fst snd] in *.
  assert (Hquiet : forallb (fun ev => negb (notifier_event ev)) fetched = true).
  { unfold later_stages_silent in Hfq. rewrite forallb_forall in *.
    intros ev Hin. specialize (Hfq ev Hin).
    destruct (notifier_event ev); [|reflexivity].
    now rewrite orb_true_r in Hfq. }
  assert (Hgoal : forall tr,
    tr = [Log INFO Msg_banner; Log INFO (Msg_step 1); Log INFO Msg_fetcher_init]
         ++ fetched
         ++ [Log INFO (Msg_got_topics (List.length (t :: rest)));
             File_write "weibo_topics_raw.txt"]
         ++ [Log INFO Msg_raw_saved; Log INFO (Msg_step 2);
             Log INFO Msg_summarizer_init]
         ++ summarized ++ [Log ERROR Msg_summary_failed] ->
    aborted_stage tr = Some Stage_summarize
    /\ calls tr = 1 /\ sessions tr = 0
    /\ forallb (fun ev => negb (notifier_event ev)) tr = true).
  { intros tr ->. split.
    - rewrite !app_assoc. now rewrite aborted_stage_last.
    - rewrite !forallb_app, Hquiet, Hsq. count_effects. }
  destruct Hsummary as [-> | ->]; (split; [reflexivity|]); now apply Hgoal.
Qed.

(** X21. In a configured run that fetched topics, saved both files and got
    a non-empty summary, the verdict of [main] is the verdict of
    [send_email]: True with no stage blamed, or False blaming the delivery.
    Such a run sends one request to the ranking provider, one to the
    completion endpoint, and opens the sessions of that one delivery. *)
Theorem verdict_is_the_delivery (w : world) (t : topic) (rest : list topic)
        (summary : string) :
  configured (env w) = true ->
  fst (WeiboFetcher.fetch_hot_topics (http w) 50) = t :: rest ->
  raw_write w = None ->
  fst (WeiboSummarizer.summarize (completion w) (t :: rest)) = Some summary ->
  nonempty summary = true ->
  summary_write w = None ->
  fst (main w) = fst (WeiboEmailNotifier.send_email (smtp w) summary (t :: rest))
  /\ aborted_stage (snd (main w))
     = (if fst (WeiboEmailNotifier.send_email (smtp w) summary (t :: rest))
        then None else Some Stage_deliver)
  /\ requests (snd (main w)) = 1
  /\ calls (snd (main w)) = 1
  /\ sessions (snd (main w))
     = sessions (snd (WeiboEmailNotifier.send_email (smtp w) summary (t :: rest))).
Proof.
  intros Hconf Hfetch Hraw Hsummary Hne Hsaved.
  pose proof (fetch_trace_quiet (http w) 50) as (Hfc & Hfs & _).
  pose proof (fetch_trace_counts (http w) 50) as (Hfr & _ & Hfe).
  pose proof (weibo_summarize_trace (completion w) (t :: rest))
    as (Hss & Hsr & _ & _ & Hse).
  pose proof (weibo_summarize_one_call (completion w) (t :: rest)) as Hsc.
  pose proof (send_email_counts (smtp w) summary (t :: rest))
    as (Hmc & Hmr & _ & _ & Hme).
  rewrite (main_configured_run w Hconf).
  destruct (WeiboFetcher.fetch_hot_topics (http w) 50) as [topics fetched].
  cbn [fst snd] in *. subst topics. rewrite Hraw.
  destruct (WeiboSummarizer.summarize (completion w) (t :: rest))
    as [out summarized].
  cbn [fst snd] in *. subst out.
  destruct summary as [|c s]; [discriminate|]. rewrite Hsaved.
  destruct (WeiboEmailNotifier.send_email (smtp w) (String c s) (t :: rest))
    as [sent mailed].
  cbn [fst snd] in *.
  specialize (Hfe ltac:(discriminate)). specialize (Hse ltac:(discriminate)).
  split; [reflexivity|]. split.
  - cbv zeta. cbn [snd]. destruct sent.
    + unfold aborted_stage. rewrite !errors_app, Hfe, Hse, (Hme eq_refl).
      reflexivity.
    + rewrite !app_assoc. now rewrite aborted_stage_last.
  - destruct sent; count_effects.
Qed.

(** X22. [main] returns True exactly when the configuration is complete,
    the fetcher returns at least one topic, both files are written, the
    summarizer returns a non-empty text and [send_email] returns True for
    that text and those topics. *)
Theorem success_needs_every_stage (w : world) :
  fst (main w) = true
  <-> configured (env w) = true
      /\ exists t rest summary,
        fst (WeiboFetcher.fetch_hot_topics (http w) 50) = t :: rest
        /\ raw_write w = None
        /\ fst (WeiboSummarizer.summarize (completion w) (t :: rest)) = Some summary
        /\ nonempty summary = true
        /\ summary_write w = None
        /\ fst (WeiboEmailNotifier.send_email (smtp w) summary (t :: rest)) = true.
Proof.
  destruct (configured (env w)) eqn:Hconf.
  - rewrite (main_configured_run w Hconf).
    destruct (WeiboFetcher.fetch_hot_topics (http w) 50) as [[|t rest] fetched];
      cbn [fst snd].
    { split; [discriminate|]. intros (_ & t & rest & s & H & _). discriminate. }
    destruct (raw_write w) as [e|].
    { split; [discriminate|]. intros (_ & t' & rest' & s & _ & H & _).
      discriminate. }
    destruct (WeiboSummarizer.summarize (completion w) (t :: rest))
      as [[[|c s]|] summarized] eqn:Hsum.
    1, 3: split; [discriminate|];
      intros (_ & t' & rest' & s' & [= <- <-] & _ & H & Hne & _);
      rewrite Hsum in H; cbn in H; try discriminate;
      injection H as <-; discriminate.
    destruct (summary_write w) as [e|].
    { split; [discriminate|]. intros (_ & t' & rest' & s' & _ & _ & _ & _ & H & _).
      discriminate. }
    destruct (WeiboEmailNotifier.send_email (smtp w) (String c s) (t :: rest))
      as [sent mailed] eqn:Hsend.
    cbn [fst]. split.
    + intros ->. split; [reflexivity|].
      exists t, rest, (String c s). rewrite Hsum, Hsend. repeat split.
    + intros (_ & t' & rest' & s' & [= <- <-] & _ & H & _ & _ & Hsent).
      rewrite Hsum in H. cbn in H. injection H as <-.
      rewrite Hsend in Hsent. exact Hsent.
  - destruct (main_unconfigured w Hconf) as (m & ->).
    split; [discriminate|]. intros [H _]. discriminate.
Qed.

(** X23. When the raw ranking cannot be written, a configured run with
    topics returns False before the summarizer is used: no completion
    request, no SMTP session, and the closing error record carries the
    message of the failure without blaming a stage. *)
Theorem raw_file_failure_stops_the_run (w : world) (t : topic)
        (rest : list topic) (e : exn) :
  configured (env w) = true ->
  fst (WeiboFetcher.fetch_hot_topics (http w) 50) = t :: rest ->
  raw_write w = Some e ->
  fst (main w) = false
  /\ calls (snd (main w)) = 0
  /\ sessions (snd (main w)) = 0
  /\ last (snd (main w)) Http_get = Log ERROR (Msg_program_failed (exn_str e))
  /\ aborted_stage (snd (main w)) = None.
Proof.
  intros Hconf Hfetch Hraw.
  pose proof (fetch_trace_quiet (http w) 50) as (Hfc & Hfs & _).
  rewrite (main_configured_run w Hconf).
  destruct (WeiboFetcher.fetch_hot_topics (http w) 50) as [topics fetched].
  cbn [fst snd] in *. subst topics. rewrite Hraw. cbv zeta. cbn [fst snd].
  split; [reflexivity|]. split; [|split; [|split]].
  - count_effects.
  - count_effects.
  - rewrite !app_assoc. apply last_last.
  - rewrite !app_assoc. now rewrite aborted_stage_last.
Qed.

(** X24. When the summary cannot be written, a configured run that obtained
    a summary returns False without mailing it: one completion request was
    sent and no SMTP session is opened. *)
Theorem summary_file_failure_sends_no_mail (w : world) (t : topic)
        (rest : list topic) (summary : string) (e : exn) :
  configured (env w) = true ->
  fst (WeiboFetcher.fetch_hot_topics (http w) 50) = t :: rest ->
  raw_write w = None ->
  fst (WeiboSummarizer.summarize (completion w) (t :: rest)) = Some summary ->
  nonempty summary = true ->
  summary_write w = Some e ->
  fst (main w) = false
  /\ calls (snd (main w)) = 1
  /\ sessions (snd (main w)) = 0
  /\ last (snd (main w)) Http_get = Log ERROR (Msg_program_failed (exn_str e)).
Proof.
  intros Hconf Hfetch Hraw Hsummary Hne Hsaved.
  pose proof (fetch_trace_quiet (http w) 50) as (Hfc & Hfs & _).
  pose proof (weibo_summarize_trace (completion w) (t :: rest)) as (Hss & _).
  pose proof (weibo_summarize_one_call (completion w) (t :: rest)) as Hsc.
  rewrite (main_configured_run w Hconf).
  destruct (WeiboFetcher.fetch_hot_topics (http w) 50) as [topics fetched].
  cbn [fst snd] in *. subst topics. rewrite Hraw.
  destruct (WeiboSummarizer.summarize (completion w) (t :: rest))
    as [out summarized].
  cbn [fst snd] in *. subst out.
  destruct summary as [|c s]; [discriminate|]. rewrite Hsaved.
  cbv zeta. cbn [fst snd].
  split; [reflexivity|]. split; [|split].
  - count_effects.
  - count_effects.
  - rewrite !app_assoc. apply last_last.
Qed.

Lemma in_order_app (tr tr' : trace) :
  forall requested called,
    in_order requested called (tr ++ tr')
    = in_order requested called tr
      && in_order (requested || Nat.ltb 0 (requests tr))
           (called || Nat.ltb 0 (calls tr)) tr'.
Proof.
  induction tr as [|ev tr IH]; intros requested called.
  - cbn. now rewrite !orb_false_r.
  - destruct ev; cbn [app in_order]; rewrite IH;
      try reflexivity.
    + change (requests (Http_get :: tr)) with (S (requests tr)).
      cbn [Nat.ltb Nat.leb orb]. now rewrite orb_true_r.
    + rewrite calls_call. cbn [Nat.ltb Nat.leb]. rewrite orb_true_r.
      change (requests (Completion_call p max_tokens :: tr)) with (requests tr).
      now rewrite andb_assoc.
    + change (requests (Smtp_open :: tr)) with (requests tr).
      change (calls (Smtp_open :: tr)) with (calls tr).
      now rewrite andb_assoc.
Qed.

(** A trace without completion request and without session is in order
    whatever came before. *)
Lemma in_order_quiet (tr : trace) :
  forall requested called,
    calls tr = 0 -> sessions tr = 0 -> in_order requested called tr = true.
Proof.
  induction tr as [|ev tr IH]; intros requested called Hc Hs; [reflexivity|].
  destruct ev; cbn [in_order]; try (apply IH; assumption); discriminate.
Qed.

(** After a request to the ranking provider, a trace without session is in
    order. *)
Lemma in_order_requested (tr : trace) :
  forall called, sessions tr = 0 -> in_order true called tr = true.
Proof.
  induction tr as [|ev tr IH]; intros called Hs; [reflexivity|].
  destruct ev; cbn [in_order andb]; try (apply IH; assumption); discriminate.
Qed.

Lemma in_order_called (tr : trace) : in_order true true tr = true.
Proof.
  induction tr as [|ev tr IH]; [reflexivity|].
  destruct ev; cbn [in_order andb]; exact IH.
Qed.

(** What [in_order] says of each event of the trace. *)
Lemma in_order_split (pre : trace) :
  forall requested called ev post,
    in_order requested called (pre ++ ev :: post) = true ->
    (is_smtp_open ev = true -> called = true \/ 0 < calls pre)
    /\ (is_completion_call ev = true -> requested = true \/ 0 < requests pre).
Proof.
  induction pre as [|x pre IH]; intros requested called ev post H.
  - cbn [app] in H. destruct ev; cbn in *; split; try discriminate; intros _;
      left; now apply andb_true_iff in H.
  - cbn [app] in H.
    assert (Hcounts : forall a b,
               in_order a b (pre ++ ev :: post) = true ->
               (a = true -> requested = true \/ 0 < requests (x :: pre)) ->
               (b = true -> called = true \/ 0 < calls (x :: pre)) ->
               calls pre <= calls (x :: pre) ->
               requests pre <= requests (x :: pre) ->
               (is_smtp_open ev = true -> called = true \/ 0 < calls (x :: pre))
               /\ (is_completion_call ev = true ->
                   requested = true \/ 0 < requests (x :: pre))).
    { intros a b Hab Ha Hb Hc Hr. destruct (IH a b ev post Hab) as [H1 H2].
      split; intro Hev.
      - destruct (H1 Hev) as [-> | Hpos]; [auto|right; lia].
      - destruct (H2 Hev) as [-> | Hpos]; [auto|right; lia]. }
    destruct x; cbn [in_order] in H;
      try (apply (Hcounts requested called H); auto; unfold calls, requests; cbn; lia).
    + apply (Hcounts true called H); auto; unfold calls, requests; cbn; lia.
    + apply andb_true_iff in H as [Hreq H].
      apply (Hcounts requested true H); auto; unfold calls, requests; cbn; lia.
    + apply andb_true_iff in H as [Hcalled H].
      apply (Hcounts requested called H); auto; unfold calls, requests; cbn; lia.
Qed.

(** Splits [in_order] along a concatenated trace and computes the parts
    that are known. *)
Ltac order_effects :=
  cbv zeta; cbn [fst snd];
  rewrite !in_order_app;
  repeat match goal with
         | H : requests _ = _ |- _ => rewrite H
         | H : calls _ = _ |- _ => rewrite H
         end;
  unfold calls, requests; cbn;
  repeat match goal with
         | H : forall a b, in_order a b _ = true |- _ => rewrite H
         | H : forall b, in_order true b _ = true |- _ => rewrite H
         end;
  rewrite ?in_order_called; reflexivity.

Lemma main_in_order (w : world) : in_order false false (snd (main w)) = true.
Proof.
  destruct (configured (env w)) eqn:Hconf.
  - pose proof (fetch_trace_quiet (http w) 50) as (Hfc & Hfs & _).
    pose proof (fetch_trace_counts (http w) 50) as (Hfr & _ & _).
    pose proof (fun a b => in_order_quiet _ a b Hfc Hfs) as Hfo.
    clear Hfs.
    rewrite (main_configured_run w Hconf).
    destruct (WeiboFetcher.fetch_hot_topics (http w) 50) as [[|t rest] fetched];
      cbn [fst snd] in *; [order_effects|].
    destruct (raw_write w) as [e|]; [order_effects|].
    pose proof (weibo_summarize_trace (completion w) (t :: rest))
      as (Hss & Hsr & _).
    pose proof (weibo_summarize_one_call (completion w) (t :: rest)) as Hsc.
    pose proof (fun b => in_order_requested _ b Hss) as Hso.
    clear Hss.
    destruct (WeiboSummarizer.summarize (completion w) (t :: rest))
      as [[[|c s]|] summarized]; cbn [fst snd] in *; try solve [order_effects].
    destruct (summary_write w) as [e|]; [order_effects|].
    pose proof (send_email_counts (smtp w) (String c s) (t :: rest))
      as (Hmc & Hmr & _).
    destruct (WeiboEmailNotifier.send_email (smtp w) (String c s) (t :: rest))
      as [[|] mailed]; cbn [fst snd] in *; order_effects.
  - destruct (main_unconfigured w Hconf) as (m & ->). reflexivity.
Qed.

(** X25. Whatever the world, one run of [main] sends at most one request
    to the ranking provider and at most one completion request, opens at
    most three SMTP sessions and never sleeps; the services are reached in
    order: wherever an SMTP session is opened in the trace of the run, a
    completion request comes before it, and wherever a completion request
    is sent, a request to the ranking provider comes before it. *)
Theorem run_effects_are_bounded (w : world) :
  requests (snd (main w)) <= 1
  /\ calls (snd (main w)) <= 1
  /\ sessions (snd (main w)) <= 3
  /\ slept (snd (main w)) = 0%Z
  /\ (0 < sessions (snd (main w)) -> calls (snd (main w)) = 1)
  /\ (0 < calls (snd (main w)) -> requests (snd (main w)) = 1)
  /\ (forall before ev after,
         snd (main w) = before ++ ev :: after ->
         (is_smtp_open ev = true -> 0 < calls before)
         /\ (is_completion_call ev = true -> 0 < requests before)).
Proof.
  assert (Hcounts :
    requests (snd (main w)) <= 1
    /\ calls (snd (main w)) <= 1
    /\ sessions (snd (main w)) <= 3
    /\ slept (snd (main w)) = 0%Z
    /\ (0 < sessions (snd (main w)) -> calls (snd (main w)) = 1)
    /\ (0 < calls (snd (main w)) -> requests (snd (main w)) = 1)).
  { destruct (configured (env w)) eqn:Hconf.
    - pose proof (fetch_trace_quiet (http w) 50) as (Hfc & Hfs & _).
      pose proof (fetch_trace_counts (http w) 50) as (Hfr & Hfz & _).
      rewrite (main_configured_run w Hconf).
      destruct (WeiboFetcher.fetch_hot_topics (http w) 50)
        as [[|t rest] fetched];
        cbn [fst snd] in *; [count_effects|].
      destruct (raw_write w) as [e|]; [count_effects|].
      pose proof (weibo_summarize_trace (completion w) (t :: rest))
        as (Hss & Hsr & Hsz & _).
      pose proof (weibo_summarize_one_call (completion w) (t :: rest)) as Hsc.
      destruct (WeiboSummarizer.summarize (completion w) (t :: rest))
        as [[[|c s]|] summarized]; cbn [fst snd] in *; try count_effects.
      destruct (summary_write w) as [e|]; [count_effects|].
      pose proof (send_email_counts (smtp w) (String c s) (t :: rest))
        as (Hmc & Hmr & Hmz & Hms & _).
      destruct (WeiboEmailNotifier.send_email (smtp w) (String c s) (t :: rest))
        as [[|] mailed]; cbn [fst snd] in *; count_effects.
    - destruct (main_unconfigured w Hconf) as (m & ->).
      cbn. repeat split; auto; try lia. }
  destruct Hcounts as (H1 & H2 & H3 & H4 & H5 & H6).
  repeat (split; [assumption|]).
  intros before ev after Hsplit.
  pose proof (main_in_order w) as Hord. rewrite Hsplit in Hord.
  destruct (in_order_split before false false ev after Hord) as [Hs Hc].
  split; intro Hev.
  - destruct (Hs Hev) as [Hf|Hpos]; [discriminate|exact Hpos].
  - destruct (Hc Hev) as [Hf|Hpos]; [discriminate|exact Hpos].
Qed.

End PipelineVerdicts.

(** ** The further properties on sample runs *)

Lemma summarize_result_never_empty_witness :
  fst (DeepSeekSummarizer.summarize (DeepSeekSummarizer.init "deepseek-chat")
         empty_then_text "topics" "") = Some "digest"
  /\ nonempty "digest" = true.
Proof.
  split; [reflexivity|].
  exact (summarize_result_never_empty (py := ascii_builtins)
           (DeepSeekSummarizer.init "deepseek-chat") empty_then_text
           "topics" "" "digest" eq_refl).
Defined.

Lemma summarize_total_sleep_bounded_witness :
  (0 <= DeepSeekSummarizer.retry_delay (DeepSeekSummarizer.init "deepseek-chat"))%Z
  /\ (slept (snd (DeepSeekSummarizer.summarize
                    (DeepSeekSummarizer.init "deepseek-chat")
                    unavailable_then_unauthorized "topics" "")) <= 24)%Z.
Proof.
  assert (Hd : (0 <= DeepSeekSummarizer.retry_delay
                       (DeepSeekSummarizer.init "deepseek-chat"))%Z)
    by discriminate.
  split; [exact Hd|].
  exact (proj2 (summarize_total_sleep_bounded (py := ascii_builtins)
                  (DeepSeekSummarizer.init "deepseek-chat")
                  unavailable_then_unauthorized "topics" "" Hd)).
Defined.

Lemma all_quota_errors_sleep_after_every_attempt_witness :
  DeepSeekSummarizer.rejected "topics" = false
  /\ calls (snd (DeepSeekSummarizer.summarize
                   (DeepSeekSummarizer.init "deepseek-chat")
                   always_rate_limited "topics" "")) = 3
  /\ slept (snd (DeepSeekSummarizer.summarize
                   (DeepSeekSummarizer.init "deepseek-chat")
                   always_rate_limited "topics" "")) = 24%Z.
Proof.
  destruct (all_quota_errors_sleep_after_every_attempt (py := ascii_builtins)
              (DeepSeekSummarizer.init "deepseek-chat")
              always_rate_limited "topics" "" eq_refl)
    as (_ & Hcalls & Hslept).
  { intros j _. exists rate_limited. split; reflexivity. }
  split; [reflexivity|]. split; [exact Hcalls|exact Hslept].
Defined.

Lemma all_network_errors_skip_the_last_wait_witness :
  DeepSeekSummarizer.rejected "topics" = false
  /\ 0 < DeepSeekSummarizer.max_retries (DeepSeekSummarizer.init "deepseek-chat")
  /\ (2 * slept (snd (DeepSeekSummarizer.summarize
                        (DeepSeekSummarizer.init "deepseek-chat")
                        always_timed_out "topics" "")) = 12)%Z.
Proof.
  assert (Hpos : 0 < DeepSeekSummarizer.max_retries
                       (DeepSeekSummarizer.init "deepseek-chat"))
    by apply Nat.lt_0_succ.
  destruct (all_network_errors_skip_the_last_wait (py := ascii_builtins)
              (DeepSeekSummarizer.init "deepseek-chat")
              always_timed_out "topics" "" eq_refl Hpos)
    as (_ & _ & Hslept).
  { intros j _. exists timed_out. split; reflexivity. }
  split; [reflexivity|]. split; [exact Hpos|exact Hslept].
Defined.

Lemma empty_answers_never_sleep_witness :
  DeepSeekSummarizer.rejected "topics" = false
  /\ slept (snd (DeepSeekSummarizer.summarize
                   (DeepSeekSummarizer.init "deepseek-chat")
                   always_blank "topics" "")) = 0%Z
  /\ last (snd (DeepSeekSummarizer.summarize
                  (DeepSeekSummarizer.init "deepseek-chat")
                  always_blank "topics" "")) Http_get
     = Log ERROR (Msg_exhausted 3 None).
Proof.
  destruct (empty_answers_never_sleep (py := ascii_builtins)
              (DeepSeekSummarizer.init "deepseek-chat")
              always_blank "topics" "" eq_refl)
    as (Hslept & Hlast).
  { intros j _. eexists. reflexivity. }
  split; [reflexivity|]. split; [exact Hslept|exact (Hlast eq_refl)].
Defined.

Lemma retry_marks_take_precedence_witness :
  contains "401" (exn_str quota_with_401) = true
  /\ contains "quota" (py_lower (exn_str quota_with_401)) = true
  /\ decides (Api_raises quota_with_401) = DeepSeekSummarizer.Continue.
Proof.
  split; [reflexivity|]. split; [reflexivity|].
  exact (proj1 (retry_marks_take_precedence (py := ascii_builtins) quota_with_401)
           eq_refl).
Defined.

Lemma weibo_summary_is_stripped_first_choice_witness :
  fst (WeiboSummarizer.summarize always_blank three_topics) = Some EmptyString.
Proof.
  apply (proj2 (weibo_summary_is_stripped_first_choice (py := ascii_builtins)
                  always_blank three_topics EmptyString)).
  exists "   ", []. split; reflexivity.
Defined.

Lemma topics_come_from_accepted_envelope_witness :
  fst (WeiboFetcher.fetch_hot_topics (WeiboFetcher.Get_json accepted) 2)
  = firstn 2 three_topics
  /\ exists data lst,
      WeiboFetcher.Get_json accepted = WeiboFetcher.Get_json data
      /\ WeiboFetcher.code data = Some (VInt 200)
      /\ WeiboFetcher.result data = WeiboFetcher.Result_object (Some lst).
Proof.
  split; [reflexivity|].
  destruct (topics_come_from_accepted_envelope
              (WeiboFetcher.Get_json accepted) 2
              (Topic (Some "热") (Some "alpha") (Some (VStr "12345")))
              [Topic None (Some "beta") (Some (VInt 999))] eq_refl)
    as (data & lst & H1 & H2 & H3 & _).
  exists data, lst. auto.
Defined.

Lemma fetched_topics_are_a_prefix_witness :
  WeiboFetcher.code accepted = Some (VInt 200)
  /\ WeiboFetcher.result accepted = WeiboFetcher.Result_object (Some three_topics)
  /\ List.length (fst (WeiboFetcher.fetch_hot_topics
                         (WeiboFetcher.Get_json accepted) (-1))) = 2.
Proof.
  destruct (fetched_topics_are_a_prefix accepted three_topics (-1) eq_refl eq_refl)
    as (_ & _ & Hlen).
  split; [reflexivity|]. split; [reflexivity|]. apply Hlen. reflexivity.
Defined.

Lemma format_topics_lists_every_topic_witness :
  three_topics <> []
  /\ exists ls,
      WeiboFetcher.format_topics three_topics = WeiboFetcher.Lines ls
      /\ map WeiboFetcher.line_rank ls = [1; 2; 3]
      /\ map WeiboFetcher.line_tag ls = ["[热]"; ""; ""].
Proof.
  assert (Hne : three_topics <> []) by discriminate.
  split; [exact Hne|].
  destruct (proj2 (format_topics_lists_every_topic (py := ascii_builtins)
                     three_topics) Hne)
    as (ls & Hlines & _ & Hranks & _ & Htags).
  exists ls. split; [exact Hlines|]. split; [exact Hranks|exact Htags].
Defined.

Lemma mail_rows_agree_with_listing_witness :
  WeiboFetcher.format_topics three_topics
  = WeiboFetcher.Lines (WeiboFetcher.lines 1 three_topics)
  /\ map row_heat (html_rows (WeiboEmailNotifier._generate_html "digest" three_topics))
     = firstn 30 (map WeiboFetcher.line_heat (WeiboFetcher.lines 1 three_topics)).
Proof.
  split; [reflexivity|].
  exact (proj2 (proj2 (mail_rows_agree_with_listing (py := ascii_builtins)
                         "digest" three_topics
                         (WeiboFetcher.lines 1 three_topics) eq_refl))).
Defined.

Lemma delivered_iff_a_session_sends_witness :
  third_time_lucky 2 = Session_sent
  /\ fst (WeiboEmailNotifier.send_email third_time_lucky "digest" three_topics)
     = true.
Proof.
  split; [reflexivity|].
  apply (proj2 (delivered_iff_a_session_sends (py := ascii_builtins)
                  third_time_lucky "digest" three_topics)).
  exists 2. split; [apply Nat.lt_succ_diag_r|]. split; [reflexivity|].
  intros j Hj. destruct j as [|[|j]]; [reflexivity|reflexivity|].
  exfalso. apply (Nat.nlt_0_r j).
  apply Nat.succ_lt_mono, Nat.succ_lt_mono. exact Hj.
Defined.

Lemma unconfigured_run_touches_nothing_witness :
  Main.configured (Main.env keyless_run) = false
  /\ fst (Main.main keyless_run) = false
  /\ requests (snd (Main.main keyless_run)) = 0.
Proof.
  destruct (unconfigured_run_touches_nothing (py := ascii_builtins)
              keyless_run eq_refl) as (Hfalse & Hrequests & _).
  split; [reflexivity|]. split; [exact Hfalse|exact Hrequests].
Defined.

Lemma failed_summary_stops_before_mail_witness :
  fst (WeiboSummarizer.summarize (Main.completion blank_run) three_topics)
  = Some EmptyString
  /\ fst (Main.main blank_run) = false
  /\ aborted_stage (snd (Main.main blank_run)) = Some Stage_summarize
  /\ sessions (snd (Main.main blank_run)) = 0.
Proof.
  destruct (failed_summary_stops_before_mail (py := ascii_builtins) blank_run
              (Topic (Some "热") (Some "alpha") (Some (VStr "12345")))
              [Topic None (Some "beta") (Some (VInt 999));
               Topic (Some "") (Some "gamma") None]
              eq_refl eq_refl eq_refl (or_intror eq_refl))
    as (Hfalse & Hstage & _ & Hsessions & _).
  split; [reflexivity|]. split; [exact Hfalse|].
  split; [exact Hstage|exact Hsessions].
Defined.

Lemma verdict_is_the_delivery_witness :
  fst (WeiboEmailNotifier.send_email (Main.smtp undelivered_run) "digest" three_topics)
  = false
  /\ fst (Main.main undelivered_run) = false
  /\ aborted_stage (snd (Main.main undelivered_run)) = Some Stage_deliver
  /\ sessions (snd (Main.main undelivered_run)) = 3.
Proof.
  destruct (verdict_is_the_delivery (py := ascii_builtins) undelivered_run
              (Topic (Some "热") (Some "alpha") (Some (VStr "12345")))
              [Topic None (Some "beta") (Some (VInt 999));
               Topic (Some "") (Some "gamma") None]
              "digest" eq_refl eq_refl eq_refl eq_refl eq_refl eq_refl)
    as (Hverdict & Hstage & _ & _ & Hsessions).
  split; [reflexivity|]. split; [exact Hverdict|].
  split; [exact Hstage|exact Hsessions].
Defined.

Lemma success_needs_every_stage_witness :
  Main.configured (Main.env smooth_run) = true
  /\ fst (Main.main smooth_run) = true.
Proof.
  split; [reflexivity|].
  apply (proj2 (success_needs_every_stage (py := ascii_builtins) smooth_run)).
  split; [reflexivity|].
  exists (Topic (Some "热") (Some "alpha") (Some (VStr "12345"))),
    [Topic None (Some "beta") (Some (VInt 999));
     Topic (Some "") (Some "gamma") None],
    "digest".
  repeat split; reflexivity.
Defined.

Lemma raw_file_failure_stops_the_run_witness :
  Main.raw_write read_only_run
  = Some (Exn OtherException "[Errno 30] Read-only file system")
  /\ fst (Main.main read_only_run) = false
  /\ calls (snd (Main.main read_only_run)) = 0
  /\ last (snd (Main.main read_only_run)) Http_get
     = Log ERROR (Msg_program_failed "[Errno 30] Read-only file system").
Proof.
  destruct (raw_file_failure_stops_the_run (py := ascii_builtins) read_only_run
              (Topic (Some "热") (Some "alpha") (Some (VStr "12345")))
              [Topic None (Some "beta") (Some (VInt 999));
               Topic (Some "") (Some "gamma") None]
              (Exn OtherException "[Errno 30] Read-only file system")
              eq_refl eq_refl eq_refl)
    as (Hfalse & Hcalls & _ & Hlast & _).
  split; [reflexivity|]. split; [exact Hfalse|].
  split; [exact Hcalls|exact Hlast].
Defined.

Lemma summary_file_failure_sends_no_mail_witness :
  Main.summary_write full_disk_run
  = Some (Exn OtherException "[Errno 28] No space left on device")
  /\ fst (Main.main full_disk_run) = false
  /\ calls (snd (Main.main full_disk_run)) = 1
  /\ sessions (snd (Main.main full_disk_run)) = 0.
Proof.
  destruct (summary_file_failure_sends_no_mail (py := ascii_builtins)
              full_disk_run
              (Topic (Some "热") (Some "alpha") (Some (VStr "12345")))
              [Topic None (Some "beta") (Some (VInt 999));
               Topic (Some "") (Some "gamma") None]
              "digest"
              (Exn OtherException "[Errno 28] No space left on device")
              eq_refl eq_refl eq_refl eq_refl eq_refl eq_refl)
    as (Hfalse & Hcalls & Hsessions & _).
  split; [reflexivity|]. split; [exact Hfalse|].
  split; [exact Hcalls|exact Hsessions].
Defined.

Lemma run_effects_are_bounded_witness :
  snd (Main.main smooth_run)
  = firstn 20 (snd (Main.main smooth_run))
    ++ Smtp_open :: skipn 21 (snd (Main.main smooth_run))
  /\ 0 < calls (firstn 20 (snd (Main.main smooth_run)))
  /\ requests (snd (Main.main smooth_run)) <= 1.
Proof.
  destruct (run_effects_are_bounded (py := ascii_builtins) smooth_run)
    as (Hrequests & _ & _ & _ & _ & _ & Horder).
  split; [reflexivity|].
  split; [|exact Hrequests].
  exact (proj1 (Horder (firstn 20 (snd (Main.main smooth_run))) Smtp_open
                  (skipn 21 (snd (Main.main smooth_run))) eq_refl)
           eq_refl).
Defined.
